(** * MyStockTest: the scan-score-allocate pipeline of [app.py]

    A shallow embedding of the Streamlit script [app.py] and the proofs of
    the properties its specification states about it.

    Numbers.  The script computes on numpy [float64] values.  Here a finite
    [float64] is an exact rational ([Q]), so rounding is not part of the
    model; the special values are kept where the script can produce them:
    the [NaN] that [Series.diff] puts in its first row is [None], and the two
    divisions whose divisor comes from the price data ([momentum] and the
    floor division of the allocation) follow numpy on a zero divisor.
    Python [int]s and the [int64] quantities of the allocation are unbounded
    integers ([Z]).

    Effects.  Every [st.*] call of the script and every call of the price
    provider is an event of a trace; [st.stop()] and an exception that
    nothing catches end the script. *)

From Stdlib Require Import ZArith QArith Qround Qminmax List String Ascii Bool.
From Stdlib Require Import Lia Lqa Permutation Sorted DecimalString.
Import ListNotations.

Open Scope Q_scope.

(** ** Python values *)

(** The exceptions the modelled code can raise. *)
Inductive exn : Type :=
  | ProviderError      (* anything raised inside yfinance *)
  | IndexError         (* [.iloc] out of bounds *)
  | TypeError          (* arithmetic on a column that is not numeric *)
  | ZeroDivisionError  (* [int / int] with a zero divisor *)
  | IntCastingNaNError (* [astype(int)] on a non-finite value *).

(** Result of evaluating a Python expression that may raise. *)
Inductive py (A : Type) : Type :=
  | Ok (a : A)
  | Raise (e : exn).
Arguments Ok {A} a.
Arguments Raise {A} e.

Definition py_bind {A B} (m : py A) (f : A -> py B) : py B :=
  match m with
  | Ok a => f a
  | Raise e => Raise e
  end.

Declare Scope py_scope.
Delimit Scope py_scope with py.
Notation "x <- m ;; k" := (py_bind m (fun x => k))
  (at level 61, m at next level, right associativity) : py_scope.

(** [try: body except: return default]. *)
Definition try_except {A} (body : py A) (default : A) : A :=
  match body with
  | Ok a => a
  | Raise _ => default
  end.

(** ** float64 *)

Definition Qltb (x y : Q) : bool := negb (Qle_bool y x).
Definition Qneb (x y : Q) : bool := negb (Qeq_bool x y).

(** A [float64] that may be non-finite. *)
Inductive float64 : Type :=
  | Finite (q : Q)
  | PosInf
  | NegInf
  | NaN.

(** numpy's [a / b] on finite operands: a zero divisor gives an infinity of
    the sign of [a], or [NaN] for [0 / 0], with a warning and no exception. *)
Definition np_truediv (a b : Q) : float64 :=
  if Qeq_bool b 0 then
    if Qltb 0 a then PosInf else if Qltb a 0 then NegInf else NaN
  else Finite (a / b).

(** [x > 0]: false on [NaN]. *)
Definition np_gt0 (x : float64) : bool :=
  match x with
  | Finite q => Qltb 0 q
  | PosInf => true
  | NegInf | NaN => false
  end.

(** numpy's [a // b] on finite operands: the floor of the quotient, and a
    non-finite value on a zero divisor. *)
Definition np_floordiv (a b : Q) : float64 :=
  if Qeq_bool b 0 then
    if Qltb 0 a then PosInf else if Qltb a 0 then NegInf else NaN
  else Finite (inject_Z (Qfloor (a / b))).

(** ** pandas Series operations used by the script *)

Module pd.

(** A column of finite floats. *)
Definition Series := list Q.

(** A column in which a row may be [NaN] ([None]). *)
Definition NaSeries := list (option Q).

Definition len {A} (s : list A) : Z := Z.of_nat (Datatypes.length s).

(** [s.iloc[i]]: a negative [i] counts from the end. *)
Definition iloc (s : Series) (i : Z) : py Q :=
  let n := len s in
  let j := (if i <? 0 then n + i else i)%Z in
  if ((0 <=? j) && (j <? n))%Z
  then match nth_error s (Z.to_nat j) with
       | Some x => Ok x
       | None => Raise IndexError
       end
  else Raise IndexError.

(** [s.tail(n)]: the last [n] rows, all of them when there are fewer. *)
Definition tail (n : nat) (s : Series) : Series :=
  skipn (Datatypes.length s - n) s.

Fixpoint sum (s : Series) : Q :=
  match s with
  | [] => 0
  | x :: t => x + sum t
  end.

(** [s.mean()].  pandas answers [NaN] on an empty column; the script only
    averages columns of at least ten rows. *)
Definition mean (s : Series) : Q :=
  sum s / inject_Z (len s).

Fixpoint diff_from (prev : Q) (s : Series) : NaSeries :=
  match s with
  | [] => []
  | x :: t => Some (x - prev) :: diff_from x t
  end.

(** [s.diff()]: row [i] is [s[i] - s[i-1]], and the first row is [NaN]. *)
Definition diff (s : Series) : NaSeries :=
  match s with
  | [] => []
  | x :: t => None :: diff_from x t
  end.

(** [s.where(cond, other)] for a row-wise comparison [cond]: a row that
    fails the comparison is replaced by [other].  A [NaN] row fails every
    comparison, so the result has no [NaN]. *)
Definition where_ (cond : Q -> bool) (other : Q) (s : NaSeries) : Series :=
  map (fun d => match d with
                | Some x => if cond x then x else other
                | None => other
                end) s.

(** [-s]. *)
Definition neg (s : Series) : Series := map Qopp s.

End pd.

(** ** Strings *)

(** [s.replace(".NS", "")]: every occurrence of [".NS"], left to right. *)
Fixpoint replace_NS (s : string) : string :=
  match s with
  | String "."%char (String "N"%char (String "S"%char rest)) =>
      replace_NS rest
  | String c rest => String c (replace_NS rest)
  | EmptyString => EmptyString
  end.

(** ** analyze_stock *)

Inductive trend : Type := Bullish | Bearish.

(** The dict returned by [analyze_stock]. *)
Record result : Type := mk_result {
  Ticker : string;
  Price : Q;
  Score : Z;
  RSI : Q;
  Trend : trend
}.

(** The frame [hist], by its [Close] column: a column of floats, or, on
    bad data, [rows] rows of a column that is not numeric. *)
Inductive frame : Type :=
  | Frame (Close : pd.Series)
  | NonNumericFrame (rows : nat).

(** What [yf.Ticker(ticker).history(period="1mo")] gives: a frame, or an
    exception. *)
Inductive history_outcome : Type :=
  | History (hist : frame)
  | HistoryRaises.

(** [len(hist)] *)
Definition frame_len (hist : frame) : Z :=
  match hist with
  | Frame Close => pd.len Close
  | NonNumericFrame rows => Z.of_nat rows
  end.

(** [hist['Close']] as the operand of the arithmetic that follows: on a
    column that is not numeric the first [.mean()] raises. *)
Definition numeric_Close (hist : frame) : py pd.Series :=
  match hist with
  | Frame Close => Ok Close
  | NonNumericFrame _ => Raise TypeError
  end.

(** [hist['Close'].tail(20).mean()] *)
Definition sma_20_of (Close : pd.Series) : Q := pd.mean (pd.tail 20 Close).

(** [(delta.where(delta > 0, 0)).mean()] *)
Definition gain_of (Close : pd.Series) : Q :=
  let delta := pd.diff Close in
  pd.mean (pd.where_ (fun d => Qltb 0 d) 0 delta).

(** [(-delta.where(delta < 0, 0)).mean()] *)
Definition loss_of (Close : pd.Series) : Q :=
  let delta := pd.diff Close in
  pd.mean (pd.neg (pd.where_ (fun d => Qltb d 0) 0 delta)).

(** [gain / loss if loss != 0 else 0] *)
Definition rs_of (Close : pd.Series) : Q :=
  let gain := gain_of Close in
  let loss := loss_of Close in
  if Qneb loss 0 then gain / loss else 0.

(** [100 - (100 / (1 + rs))] *)
Definition rsi_of (Close : pd.Series) : Q :=
  let rs := rs_of Close in
  100 - (100 / (1 + rs)).

(** [(current - hist['Close'].iloc[0]) / hist['Close'].iloc[0]] *)
Definition momentum_of (current first : Q) : float64 :=
  np_truediv (current - first) first.

(** The four lines that follow [score = 50]. *)
Definition score_of (rsi current sma_20 : Q) (momentum : float64) : Z :=
  let score := 50%Z in
  let score :=
    if Qltb rsi 35 then (score + 15)%Z
    else if Qltb 70 rsi then (score - 15)%Z
    else score in
  let score := if Qltb sma_20 current then (score + 15)%Z else score in
  let score := if np_gt0 momentum then (score + 10)%Z else score in
  score.

Section Analysis.

(** The price provider. *)
Variable history : string -> history_outcome.

Definition yf_history (ticker : string) : py frame :=
  match history ticker with
  | History hist => Ok hist
  | HistoryRaises => Raise ProviderError
  end.

Open Scope py_scope.

(** The body of the [try] of [analyze_stock]. *)
Definition analyze_stock_body (ticker : string) : py (option result) :=
  hist <- yf_history ticker ;;
  if (frame_len hist <? 10)%Z then Ok None else
  Close <- numeric_Close hist ;;
  current <- pd.iloc Close (-1) ;;
  let sma_20 := sma_20_of Close in
  let rsi := rsi_of Close in
  first <- pd.iloc Close 0 ;;
  let momentum := momentum_of current first in
  let score := score_of rsi current sma_20 momentum in
  Ok (Some {| Ticker := replace_NS ticker;
              Price := current;
              Score := score;
              RSI := rsi;
              Trend := if Qltb sma_20 current then Bullish else Bearish |}).

Definition analyze_stock (ticker : string) : option result :=
  try_except (analyze_stock_body ticker) None.

Close Scope py_scope.

End Analysis.

(** ** Ticker lists *)

Open Scope string_scope.

Definition get_nifty50_tickers : list string :=
  [ "ADANIENT.NS"; "ADANIPORTS.NS"; "APOLLOHOSP.NS"; "ASIANPAINT.NS";
    "AXISBANK.NS"; "BAJAJ-AUTO.NS"; "BAJFINANCE.NS"; "BAJAJFINSV.NS";
    "BHARTIARTL.NS"; "BPCL.NS"; "BRITANNIA.NS"; "CIPLA.NS"; "COALINDIA.NS";
    "DIVISLAB.NS"; "DRREDDY.NS"; "EICHERMOT.NS"; "GRASIM.NS"; "HCLTECH.NS";
    "HDFCBANK.NS"; "HDFCLIFE.NS"; "HEROMOTOCO.NS"; "HINDALCO.NS";
    "HINDUNILVR.NS"; "ICICIBANK.NS"; "INDUSINDBK.NS"; "INFY.NS"; "ITC.NS";
    "JSWSTEEL.NS"; "KOTAKBANK.NS"; "LT.NS"; "LTIM.NS"; "M&M.NS"; "MARUTI.NS";
    "NESTLEIND.NS"; "NTPC.NS"; "ONGC.NS"; "POWERGRID.NS"; "RELIANCE.NS";
    "SBILIFE.NS"; "SBIN.NS"; "SUNPHARMA.NS"; "TATACONSUM.NS";
    "TATAMOTORS.NS"; "TATASTEEL.NS"; "TCS.NS"; "TECHM.NS"; "TITAN.NS";
    "ULTRACEMCO.NS"; "UPL.NS"; "WIPRO.NS" ].

(** A row of [EQUITY_L.csv], by the two columns the script reads. *)
Record nse_row : Type := { SYMBOL : string; SERIES : string }.

(** What [requests.get] and the parsing of its answer give. *)
Inductive nse_response : Type :=
  | RequestRaises
  | Response (status_code : Z) (csv : option (list nse_row)).
      (* [csv = None]: decoding or [read_csv] or a column lookup raises *)

Definition get_all_nse_tickers (r : nse_response) : list string :=
  match r with
  | RequestRaises => []                        (* except: return [] *)
  | Response status_code csv =>
      if (status_code =? 200)%Z then
        match csv with
        | Some df =>
            let df := filter (fun row => SERIES row =? "EQ") df in
            map (fun row => SYMBOL row ++ ".NS") df
        | None => []                           (* except: return [] *)
        end
      else []                                  (* the final return [] *)
  end.

Close Scope string_scope.

(** ** The trace of a run *)

Inductive metric_label : Type :=
  | Target_Companies
  | Total_Investment
  | Savings.

(** A row of [portfolio]: the row of [df] with its two new columns. *)
Record line : Type := mk_line {
  row : result;
  Qty : Z;
  Total_Cost : Q
}.

(** The calls that reach the outside: the price provider and the page.
    The fixed texts of the page are left out of the events. *)
Inductive event : Type :=
  | yf_history_call (ticker : string)
      (* [yf.Ticker(ticker).history(period="1mo")] *)
  | st_spinner               (* "Fetching market data..." *)
  | st_warning               (* "Scanning first 200 stocks only to save time." *)
  | st_progress (value : Q)
  | st_progress_empty
  | st_error_no_data         (* "No data found." *)
  | st_error_no_stocks_under (target_per_stock : Q)
      (* "No stocks found under {target_per_stock}. Increase budget." *)
  | st_stop
  | st_metric (label : metric_label) (value : Q)
  | st_subheader             (* "Recommended Portfolio" *)
  | st_dataframe (display_df : list line)
  | st_success               (* "Analysis Complete! ..." *)
  | st_info.                 (* "Set your budget in the sidebar ..." *)

(** How a piece of the script ends. *)
Inductive ending (A : Type) : Type :=
  | Done (a : A)
  | Stopped               (* [st.stop()] *)
  | Uncaught (e : exn).
Arguments Done {A} a.
Arguments Stopped {A}.
Arguments Uncaught {A} e.

(** A piece of the script: the events it emits, then how it ends. *)
Definition script (A : Type) : Type := list event * ending A.

Definition ret {A} (a : A) : script A := ([], Done a).

Definition bind {A B} (m : script A) (f : A -> script B) : script B :=
  match m with
  | (tr, Done a) => let (tr', e) := f a in (tr ++ tr', e)
  | (tr, Stopped) => (tr, Stopped)
  | (tr, Uncaught e) => (tr, Uncaught e)
  end.

Definition emit (e : event) : script unit := ([e], Done tt).

Definition stop {A} : script A := ([st_stop], Stopped).

(** A Python expression evaluated at the top level of the script. *)
Definition toplevel {A} (m : py A) : script A :=
  match m with
  | Ok a => ret a
  | Raise e => ([], Uncaught e)
  end.

Definition trace {A} (m : script A) : list event := fst m.

Declare Scope script_scope.
Delimit Scope script_scope with script.
Notation "x <- m ;; k" := (bind m (fun x => k))
  (at level 61, m at next level, right associativity) : script_scope.
Notation "m ;; k" := (bind m (fun _ => k))
  (at level 61, right associativity) : script_scope.

(** ** The allocation block *)

(** [df.head(n)]: the first [n] rows; all but the last [-n] for [n < 0]. *)
Definition head {A} (n : Z) (df : list A) : list A :=
  if (0 <=? n)%Z then firstn (Z.to_nat n) df
  else firstn (Datatypes.length df - Z.to_nat (- n)) df.

(** The integer part of a float: rounding toward zero. *)
Definition Qtruncate (x : Q) : Z := Z.quot (Qnum x) (Zpos (Qden x)).

(** [s.astype(int)]: truncation, and pandas raises on a non-finite row. *)
Fixpoint astype_int (s : list float64) : py (list Z) :=
  match s with
  | [] => Ok []
  | Finite q :: t =>
      match astype_int t with
      | Ok zs => Ok (Qtruncate q :: zs)
      | Raise e => Raise e
      end
  | _ :: _ => Raise IntCastingNaNError
  end.

(** What the block computes before it renders anything. *)
Inductive allocation : Type :=
  | NoAffordableStocks (target_per_stock : Q)
  | Allocated (portfolio : list line) (total_invested savings : Q).

Definition truediv_int (a b : Z) : py Q :=
  if (b =? 0)%Z then Raise ZeroDivisionError
  else Ok (inject_Z a / inject_Z b).

Open Scope py_scope.

(** Lines 138 to 154 of [app.py]. *)
Definition allocate (df : list result) (budget num_stocks : Z)
  : py allocation :=
  target_per_stock <- truediv_int budget num_stocks ;;
  let affordable_df :=
    filter (fun r => Qle_bool (Price r) target_per_stock) df in
  match affordable_df with
  | [] => Ok (NoAffordableStocks target_per_stock)
  | _ :: _ =>
      let portfolio := head num_stocks affordable_df in
      qty <- astype_int
               (map (fun r => np_floordiv target_per_stock (Price r))
                    portfolio) ;;
      let portfolio :=
        map (fun rq => {| row := fst rq;
                          Qty := snd rq;
                          Total_Cost := inject_Z (snd rq) * Price (fst rq) |})
            (combine portfolio qty) in
      let portfolio := filter (fun l => (0 <? Qty l)%Z) portfolio in
      let total_invested := pd.sum (map Total_Cost portfolio) in
      let savings := inject_Z budget - total_invested in
      Ok (Allocated portfolio total_invested savings)
  end.

Close Scope py_scope.

Open Scope script_scope.

(** What the page shows for an allocation. *)
Definition render (a : allocation) : script unit :=
  match a with
  | NoAffordableStocks target_per_stock =>
      emit (st_error_no_stocks_under target_per_stock)
  | Allocated portfolio total_invested savings =>
      emit (st_metric Target_Companies (inject_Z (pd.len portfolio))) ;;
      emit (st_metric Total_Investment total_invested) ;;
      emit (st_metric Savings savings) ;;
      emit st_subheader ;;
      emit (st_dataframe portfolio) ;;
      emit st_success
  end.

(** Lines 138 to 170 of [app.py], on the sorted frame [df]. *)
Definition allocation_block (df : list result) (budget num_stocks : Z)
  : script unit :=
  a <- toplevel (allocate df budget num_stocks) ;;
  render a.

Close Scope script_scope.

(** ** The script *)

(** The two choices of the "Market Scope" radio. *)
Inductive scan_mode : Type :=
  | Nifty_50_Fast
  | Full_Market_Slow.

Section Script.

(** The outside of a run: the price provider, the answer of the NSE
    archive, and [DataFrame.sort_values(by="Score", ascending=False)]. *)
Variable history : string -> history_outcome.
Variable nse : nse_response.
Variable sort_values : list result -> list result.

Open Scope script_scope.

(** The call [analyze_stock(ticker)] as the run sees it. *)
Definition call_analyze_stock (ticker : string) : script (option result) :=
  emit (yf_history_call ticker) ;;
  ret (analyze_stock history ticker).

(** [for i, ticker in enumerate(tickers)], from index [i] on; [n] is
    [len(tickers)] of the whole list. *)
Fixpoint scan_loop (i n : Z) (tickers : list string) (results : list result)
  : script (list result) :=
  match tickers with
  | [] => ret results
  | ticker :: rest =>
      data <- call_analyze_stock ticker ;;
      let results :=
        match data with
        | Some d => results ++ [d]
        | None => results
        end in
      emit (st_progress (inject_Z (i + 1) / inject_Z n)) ;;
      scan_loop (i + 1) n rest results
  end.

(** Step 1 of the run: the list of tickers. *)
Definition get_list (mode : scan_mode) : script (list string) :=
  match mode with
  | Nifty_50_Fast => ret get_nifty50_tickers
  | Full_Market_Slow =>
      let tickers := get_all_nse_tickers nse in
      if (200 <? pd.len tickers)%Z then
        emit st_warning ;;
        ret (firstn 200 tickers)
      else ret tickers
  end.

(** Step 2 of the run: the scan. *)
Definition scan (tickers : list string) : script (list result) :=
  emit (st_progress 0) ;;
  results <- scan_loop 0 (pd.len tickers) tickers [] ;;
  emit st_progress_empty ;;
  ret results.

(** Step 3 of the run, reached with a non-empty [results]. *)
Definition process_and_filter (results : list result)
    (budget num_stocks : Z) : script unit :=
  let df := sort_values results in
  allocation_block df budget num_stocks.

(** The script below the sidebar, for one click state. *)
Definition main (run_btn : bool) (mode : scan_mode) (budget num_stocks : Z)
  : script unit :=
  if run_btn then
    emit st_spinner ;;
    tickers <- get_list mode ;;
    results <- scan tickers ;;
    match results with
    | [] => emit st_error_no_data ;; stop
    | _ :: _ => process_and_filter results budget num_stocks
    end
  else emit st_info.

Close Scope script_scope.

End Script.

(** ** Descriptions of a run *)

(** The tickers a run scans. *)
Definition universe (nse : nse_response) (mode : scan_mode) : list string :=
  match mode with
  | Nifty_50_Fast => get_nifty50_tickers
  | Full_Market_Slow => firstn 200 (get_all_nse_tickers nse)
  end.

(** The results a scan collects, in the order of the tickers. *)
Definition collect (history : string -> history_outcome)
    (tickers : list string) : list result :=
  flat_map (fun t => match analyze_stock history t with
                     | Some d => [d]
                     | None => []
                     end) tickers.

(** The tickers the provider was asked for, in the order of the calls. *)
Definition calls (tr : list event) : list string :=
  flat_map (fun e => match e with
                     | yf_history_call t => [t]
                     | _ => []
                     end) tr.


(** The events of step 3. *)
Definition is_allocation_event (e : event) : bool :=
  match e with
  | st_error_no_stocks_under _ | st_metric _ _ | st_subheader
  | st_dataframe _ | st_success => true
  | _ => false
  end.


(** The rows of [portfolio] before the rows of quantity 0 are removed. *)
Definition priced (cap : Q) (rows : list result) : list line :=
  map (fun r => {| row := r;
                   Qty := Qfloor (cap / Price r);
                   Total_Cost := inject_Z (Qfloor (cap / Price r)) * Price r |})
      rows.

(** A series [analyze_stock] scores: the provider answers it and it has at
    least ten rows. *)
Definition accepted (history : string -> history_outcome) (ticker : string)
    (Close : pd.Series) : Prop :=
  history ticker = History (Frame Close) /\ (10 <= pd.len Close)%Z.

(** The events of the loop of step 2, from index [i] on. *)
Fixpoint scan_events (i n : Z) (tickers : list string) : list event :=
  match tickers with
  | [] => []
  | t :: rest =>
      yf_history_call t :: st_progress (inject_Z (i + 1) / inject_Z n)
      :: scan_events (i + 1) n rest
  end.

(** The events of steps 1 and 2 of a run. *)
Definition scan_trace (nse : nse_response) (mode : scan_mode) : list event :=
  let notice :=
    match mode with
    | Nifty_50_Fast => []
    | Full_Market_Slow =>
        if (200 <? pd.len (get_all_nse_tickers nse))%Z then [st_warning]
        else []
    end in
  let tickers := universe nse mode in
  st_spinner :: notice
  ++ st_progress 0 :: scan_events 0 (pd.len tickers) tickers
  ++ [st_progress_empty].

(** ** The indicators as the specification words them *)

Module Spec.

Definition mean (l : list Q) : Q :=
  fold_right Qplus 0 l / inject_Z (Z.of_nat (Datatypes.length l)).

(** The [n - 1] day-over-day deltas [C[i] - C[i-1]]. *)
Definition deltas (C : list Q) : list Q :=
  map (fun p => fst p - snd p) (combine (tl C) C).

Definition avgGain (C : list Q) : Q :=
  mean (map (fun d => Qmax d 0) (deltas C)).

Definition avgLoss (C : list Q) : Q :=
  mean (map (fun d => Qmax (- d) 0) (deltas C)).

Definition rs (C : list Q) : Q :=
  if Qeq_dec (avgLoss C) 0 then 0 else avgGain C / avgLoss C.

Definition rsi (C : list Q) : Q := 100 - 100 / (1 + rs C).

(** Rule 8: the base, the if/else-if pair on rsi, and the two independent
    additions. *)
Definition score (rsi current sma20 : Q) (momentum : float64) : Z :=
  (50
   + (if Qlt_le_dec rsi 35 then 15
      else if Qlt_le_dec 70 rsi then -15 else 0)
   + (if Qlt_le_dec sma20 current then 15 else 0)
   + (if np_gt0 momentum then 10 else 0))%Z.

End Spec.

(** ** Sorting by score *)

Definition by_score_desc (a b : result) : Prop := (Score b <= Score a)%Z.

(** What [sort_values(by="Score", ascending=False)] promises with its
    default [kind="quicksort"]: the rows, reordered so that the scores do
    not increase.  pandas documents this kind as not stable. *)
Definition sort_values_contract (sort : list result -> list result) : Prop :=
  forall df, Permutation df (sort df) /\ Sorted by_score_desc (sort df).

(** Rows of equal score are in the same order in [output] as in [input]. *)
Definition keeps_tie_order (input output : list result) : Prop :=
  forall s : Z,
    filter (fun r => (Score r =? s)%Z) output
    = filter (fun r => (Score r =? s)%Z) input.

(** A descending sort that puts a row after the rows of equal score that
    followed it. *)
Fixpoint insert_after_ties (r : result) (l : list result) : list result :=
  match l with
  | [] => [r]
  | x :: t =>
      if (Score r <=? Score x)%Z then x :: insert_after_ties r t
      else r :: l
  end.

Definition sort_ties_reversed (df : list result) : list result :=
  fold_right insert_after_ties [] df.

(** A descending sort that keeps rows of equal score in their order. *)
Fixpoint insert_before_ties (r : result) (l : list result) : list result :=
  match l with
  | [] => [r]
  | x :: t =>
      if (Score r <? Score x)%Z then x :: insert_before_ties r t
      else r :: l
  end.

Definition sort_ties_kept (df : list result) : list result :=
  fold_right insert_before_ties [] df.

(** ** Concrete runs *)

Module Run.

Open Scope string_scope.

(** Two series of ten rising closes, and ten closes that alternate. *)
Definition rising : pd.Series := [1; 2; 3; 4; 5; 6; 7; 8; 9; 10].
Definition rising' : pd.Series := [11; 12; 13; 14; 15; 16; 17; 18; 19; 20].
Definition zigzag : pd.Series := [10; 12; 11; 13; 12; 14; 13; 15; 14; 16].

(** A provider that knows five tickers: two rising series, one of two rows
    only, twelve rows that are not numeric, one zigzag; it raises on any
    other. *)
Definition history (ticker : string) : history_outcome :=
  if ticker =? "A.NS" then History (Frame rising)
  else if ticker =? "B.NS" then History (Frame rising')
  else if ticker =? "C.NS" then History (Frame [1; 2])
  else if ticker =? "N.NS" then History (NonNumericFrame 12)
  else if ticker =? "Z.NS" then History (Frame zigzag)
  else HistoryRaises.

(** A provider that always raises. *)
Definition no_history (ticker : string) : history_outcome := HistoryRaises.

Definition nse_AB : nse_response :=
  Response 200 (Some [ {| SYMBOL := "A"; SERIES := "EQ" |};
                       {| SYMBOL := "B"; SERIES := "EQ" |} ]).

(** An archive of 350 equities, named ["0"] to ["349"]. *)
Definition nse_350 : nse_response :=
  Response 200
    (Some (map (fun k => {| SYMBOL := NilEmpty.string_of_uint (Nat.to_uint k);
                            SERIES := "EQ" |})
               (seq 0 350))).



Close Scope string_scope.

End Run.

(** ** Further descriptions *)

(** [".NS"] occurs in [s]. *)
Fixpoint has_NS (s : string) : bool :=
  match s with
  | EmptyString => false
  | String _ rest => (prefix ".NS" s || has_NS rest)%bool
  end.

(** The analysis of [ticker] gives a result. *)
Definition analyzed (history : string -> history_outcome) (ticker : string)
  : bool :=
  match analyze_stock history ticker with
  | Some _ => true
  | None => false
  end.

(** The values the progress bar was given, in order. *)
Definition progress_values (tr : list event) : list Q :=
  flat_map (fun e => match e with
                     | st_progress value => [value]
                     | _ => []
                     end) tr.

(** The sum of the rises and the sum of the falls of a series, day over
    day. *)
Definition total_gain (Close : pd.Series) : Q :=
  fold_right Qplus 0 (map (fun d => Qmax d 0) (Spec.deltas Close)).

Definition total_loss (Close : pd.Series) : Q :=
  fold_right Qplus 0 (map (fun d => Qmax (- d) 0) (Spec.deltas Close)).

(** The affordable rows of [df] under [cap]. *)
Definition affordable (cap : Q) (df : list result) : list result :=
  filter (fun r => Qle_bool (Price r) cap) df.

(** ** More concrete runs *)

Module Sample.

Open Scope string_scope.

(** Twenty closes, and two series that end with them. *)
Definition recent : pd.Series :=
  [20; 21; 22; 21; 20; 19; 18; 19; 20; 21;
   22; 23; 24; 23; 22; 21; 22; 23; 24; 25].

Definition history (ticker : string) : history_outcome :=
  if ticker =? "P.NS" then History (Frame ([5; 6] ++ recent)%list)
  else if ticker =? "Q.NS" then History (Frame ([90; 80; 70] ++ recent)%list)
  else HistoryRaises.


(** An archive that answers with an error page. *)
Definition nse_503 : nse_response := Response 503 None.

(** The table of the run on the tickers ["A.NS"] and ["B.NS"]. *)
Definition table_AB : list line :=
  Eval vm_compute in
    flat_map (fun e => match e with
                       | st_dataframe display_df => display_df
                       | _ => []
                       end)
      (trace (main Run.history Run.nse_AB sort_ties_reversed true
                Full_Market_Slow 50000 5)).

Close Scope string_scope.

End Sample.

(** * Proofs *)

(** ** Comparisons *)

Lemma Qltb_lt x y : Qltb x y = true <-> x < y.
Proof.
  unfold Qltb. rewrite negb_true_iff, <- not_true_iff_false, Qle_bool_iff.
  split; [apply Qnot_le_lt | apply Qlt_not_le].
Qed.

Lemma Qltb_ge x y : Qltb x y = false <-> y <= x.
Proof.
  unfold Qltb. rewrite negb_false_iff. apply Qle_bool_iff.
Qed.

Lemma Qneb_neq x y : Qneb x y = true <-> ~ x == y.
Proof.
  unfold Qneb. rewrite negb_true_iff, <- not_true_iff_false, Qeq_bool_iff.
  tauto.
Qed.

Lemma Qneb_eq x y : Qneb x y = false <-> x == y.
Proof.
  unfold Qneb. rewrite negb_false_iff. apply Qeq_bool_iff.
Qed.

(** ** Row access *)

Lemma nth_error_last (s : list Q) (d : Q) :
  s <> [] -> nth_error s (Datatypes.length s - 1) = Some (last s d).
Proof.
  induction s as [|x t IH]; [congruence|]. intros _.
  destruct t as [|y t']; [reflexivity|].
  replace (Datatypes.length (x :: y :: t') - 1)%nat
    with (S (Datatypes.length (y :: t') - 1))
    by (cbn [Datatypes.length]; lia).
  cbn [nth_error]. rewrite IH by congruence. reflexivity.
Qed.

Lemma iloc_last (s : pd.Series) :
  s <> [] -> pd.iloc s (-1) = Ok (last s 0).
Proof.
  intros Hs. unfold pd.iloc, pd.len.
  assert (Hn : (1 <= Datatypes.length s)%nat)
    by (destruct s; [congruence | cbn; lia]).
  change (-1 <? 0)%Z with true. cbv iota.
  replace (0 <=? Z.of_nat (Datatypes.length s) + -1)%Z with true
    by (symmetry; apply Z.leb_le; lia).
  replace (Z.of_nat (Datatypes.length s) + -1
           <? Z.of_nat (Datatypes.length s))%Z with true
    by (symmetry; apply Z.ltb_lt; lia).
  cbn [andb].
  replace (Z.to_nat (Z.of_nat (Datatypes.length s) + -1))
    with (Datatypes.length s - 1)%nat by lia.
  rewrite (nth_error_last s 0 Hs). reflexivity.
Qed.

Lemma iloc_first (s : pd.Series) :
  s <> [] -> pd.iloc s 0 = Ok (hd 0 s).
Proof.
  destruct s as [|x t]; [congruence|]. intros _.
  unfold pd.iloc, pd.len. change (0 <? 0)%Z with false. cbv iota.
  replace (0 <? Z.of_nat (Datatypes.length (x :: t)))%Z with true
    by (symmetry; apply Z.ltb_lt; cbn [Datatypes.length]; lia).
  reflexivity.
Qed.

Lemma ten_rows_nonempty (s : pd.Series) : (10 <= pd.len s)%Z -> s <> [].
Proof.
  intros H ->. unfold pd.len in H. cbn in H. lia.
Qed.

(** ** analyze_stock on an accepted series *)

(** The dict [analyze_stock] returns for an accepted series, field by
    field. *)
Lemma analyze_stock_accepted history ticker Close :
  accepted history ticker Close ->
  analyze_stock history ticker =
  Some {| Ticker := replace_NS ticker;
          Price := last Close 0;
          Score := score_of (rsi_of Close) (last Close 0) (sma_20_of Close)
                     (momentum_of (last Close 0) (hd 0 Close));
          RSI := rsi_of Close;
          Trend := if Qltb (sma_20_of Close) (last Close 0)
                   then Bullish else Bearish |}.
Proof.
  intros [Hh Hlen].
  pose proof (ten_rows_nonempty Close Hlen) as Hne.
  unfold analyze_stock, analyze_stock_body, yf_history. rewrite Hh.
  cbn [py_bind frame_len numeric_Close].
  replace (pd.len Close <? 10)%Z with false
    by (symmetry; apply Z.ltb_ge; exact Hlen).
  rewrite (iloc_last Close Hne). cbn [py_bind].
  rewrite (iloc_first Close Hne). reflexivity.
Qed.

(** ** The score *)





(** ** Gains and losses *)

(** [diff] is a [NaN] followed by the deltas of the specification. *)
Lemma diff_from_deltas (x : Q) (t : list Q) :
  pd.diff_from x t = map Some (Spec.deltas (x :: t)).
Proof.
  revert x. induction t as [|y t IH]; intros x; [reflexivity|].
  cbn [pd.diff_from]. rewrite IH. reflexivity.
Qed.

Lemma diff_deltas (Close : pd.Series) :
  Close <> [] -> pd.diff Close = None :: map Some (Spec.deltas Close).
Proof.
  destruct Close as [|x t]; [congruence|]. intros _.
  cbn [pd.diff]. rewrite diff_from_deltas. reflexivity.
Qed.

Lemma deltas_length (Close : list Q) :
  Datatypes.length (Spec.deltas Close) = (Datatypes.length Close - 1)%nat.
Proof.
  unfold Spec.deltas. rewrite length_map, length_combine.
  destruct Close; cbn [tl Datatypes.length]; lia.
Qed.

(** The gains the script averages: a zero for the [NaN] row, then
    [max(d, 0)] for each delta. *)
Lemma sum_gains (ds : list Q) :
  pd.sum (pd.where_ (fun d => Qltb 0 d) 0 (None :: map Some ds))
  == fold_right Qplus 0 (map (fun d => Qmax d 0) ds).
Proof.
  cbn [pd.where_ map pd.sum]. rewrite Qplus_0_l.
  induction ds as [|d ds IH]; [reflexivity|].
  cbn [map pd.sum fold_right]. fold (pd.where_ (fun d => Qltb 0 d) 0).
  unfold pd.where_ in IH |- *. rewrite IH. apply Qplus_comp; [|reflexivity].
  destruct (Qltb 0 d) eqn:E.
  - apply Qltb_lt in E. symmetry. apply Q.max_l. lra.
  - apply Qltb_ge in E. symmetry. apply Q.max_r. exact E.
Qed.

(** The losses the script averages: a zero for the [NaN] row, then
    [max(-d, 0)] for each delta. *)
Lemma sum_losses (ds : list Q) :
  pd.sum (pd.neg (pd.where_ (fun d => Qltb d 0) 0 (None :: map Some ds)))
  == fold_right Qplus 0 (map (fun d => Qmax (- d) 0) ds).
Proof.
  cbn [pd.where_ pd.neg map pd.sum].
  setoid_replace (- 0) with 0 by reflexivity. rewrite Qplus_0_l.
  induction ds as [|d ds IH]; [reflexivity|].
  cbn [map pd.sum fold_right]. unfold pd.neg, pd.where_ in IH |- *.
  rewrite IH. apply Qplus_comp; [|reflexivity].
  destruct (Qltb d 0) eqn:E.
  - apply Qltb_lt in E. symmetry. apply Q.max_l. lra.
  - apply Qltb_ge in E. setoid_replace (- 0) with 0 by reflexivity.
    symmetry. apply Q.max_r. lra.
Qed.

Lemma where_length cond other s :
  Datatypes.length (pd.where_ cond other s) = Datatypes.length s.
Proof. apply length_map. Qed.

Lemma diff_length (Close : pd.Series) :
  Datatypes.length (pd.diff Close) = Datatypes.length Close.
Proof.
  destruct Close as [|x t]; [reflexivity|]. cbn [pd.diff Datatypes.length].
  f_equal. revert x. induction t as [|y t IH]; intros x; [reflexivity|].
  cbn [pd.diff_from Datatypes.length]. f_equal. apply IH.
Qed.

(** [gain] and [loss] are the two sums over the number [n] of rows. *)
Lemma gain_of_sum (Close : pd.Series) :
  Close <> [] ->
  gain_of Close
  == fold_right Qplus 0 (map (fun d => Qmax d 0) (Spec.deltas Close))
     / inject_Z (pd.len Close).
Proof.
  intros Hne. unfold gain_of, pd.mean, pd.len.
  rewrite where_length, diff_length, (diff_deltas Close Hne), sum_gains.
  reflexivity.
Qed.

Lemma loss_of_sum (Close : pd.Series) :
  Close <> [] ->
  loss_of Close
  == fold_right Qplus 0 (map (fun d => Qmax (- d) 0) (Spec.deltas Close))
     / inject_Z (pd.len Close).
Proof.
  intros Hne. unfold loss_of, pd.mean, pd.len, pd.neg.
  rewrite length_map, where_length, diff_length, (diff_deltas Close Hne).
  fold (pd.neg (pd.where_ (fun d => Qltb d 0) 0
                  (None :: map Some (Spec.deltas Close)))).
  rewrite sum_losses. reflexivity.
Qed.

Lemma rows_pos (s : pd.Series) : s <> [] -> 0 < inject_Z (pd.len s).
Proof.
  intros Hne. unfold pd.len. change 0 with (inject_Z 0).
  rewrite <- Zlt_Qlt. destruct s; [congruence | cbn [Datatypes.length]; lia].
Qed.

Lemma Qdiv_zero_num (a b : Q) : 0 < b -> (a / b == 0 <-> a == 0).
Proof.
  intros Hb. split; intros H.
  - setoid_replace a with (a / b * b) by (field; lra). rewrite H. ring.
  - rewrite H. field. lra.
Qed.

Lemma no_losses_sum (ds : list Q) :
  Forall (fun d => 0 <= d) ds ->
  fold_right Qplus 0 (map (fun d => Qmax (- d) 0) ds) == 0.
Proof.
  induction 1 as [|d ds Hd _ IH]; [reflexivity|].
  cbn [map fold_right]. rewrite IH, Qplus_0_r. apply Q.max_r. lra.
Qed.

(** Without a falling day [loss] is zero and [rs] takes its [else]. *)
Lemma no_losses_rs (Close : pd.Series) :
  Close <> [] ->
  Forall (fun d => 0 <= d) (Spec.deltas Close) ->
  loss_of Close == 0 /\ rs_of Close = 0.
Proof.
  intros Hne Hup.
  assert (Hloss : loss_of Close == 0).
  { rewrite (loss_of_sum Close Hne).
    apply Qdiv_zero_num; [apply rows_pos, Hne | apply no_losses_sum, Hup]. }
  split; [exact Hloss|].
  unfold rs_of. cbv zeta. rewrite (proj2 (Qneb_eq _ _) Hloss). reflexivity.
Qed.

(** C1.  For every accepted price series without a negative day-over-day
    delta, avgLoss is 0, the computed rs is 0 and the returned rsi is
    exactly 0, as [100 - 100 / (1 + rs)] gives it. *)
Theorem rsi_zero_without_losses history ticker Close :
  accepted history ticker Close ->
  Forall (fun d => 0 <= d) (Spec.deltas Close) ->
  loss_of Close == 0 /\
  rs_of Close = 0 /\
  exists r, analyze_stock history ticker = Some r /\ RSI r == 0.
Proof.
  intros Hacc Hup.
  pose proof (ten_rows_nonempty Close (proj2 Hacc)) as Hne.
  destruct (no_losses_rs Close Hne Hup) as [Hloss Hrs].
  repeat split; trivial.
  eexists. split; [apply analyze_stock_accepted, Hacc|].
  cbn [RSI]. unfold rsi_of. cbv zeta. rewrite Hrs. reflexivity.
Qed.

(** [1 + rs] is never zero: the division of [rsi] is by a positive
    number. *)
Lemma where_gain_nonneg (s : pd.NaSeries) :
  0 <= pd.sum (pd.where_ (fun d => Qltb 0 d) 0 s).
Proof.
  induction s as [|d s IH]; [cbn; lra|].
  cbn [pd.where_ map pd.sum]. unfold pd.where_ in IH.
  destruct d as [x|]; [|lra].
  destruct (Qltb 0 x) eqn:E; [apply Qltb_lt in E|]; lra.
Qed.

Lemma where_loss_nonneg (s : pd.NaSeries) :
  0 <= pd.sum (pd.neg (pd.where_ (fun d => Qltb d 0) 0 s)).
Proof.
  induction s as [|d s IH]; [cbn; lra|].
  cbn [pd.where_ pd.neg map pd.sum]. unfold pd.where_, pd.neg in IH.
  destruct d as [x|]; [|lra].
  destruct (Qltb x 0) eqn:E; [apply Qltb_lt in E|]; lra.
Qed.

Lemma mean_nonneg (s : pd.Series) : 0 <= pd.sum s -> 0 <= pd.mean s.
Proof.
  intros H. unfold pd.mean, Qdiv. apply Qmult_le_0_compat; [exact H|].
  apply Qinv_le_0_compat. change 0 with (inject_Z 0). rewrite <- Zle_Qle.
  unfold pd.len. lia.
Qed.

Lemma rs_of_nonneg (Close : pd.Series) : 0 <= rs_of Close.
Proof.
  unfold rs_of. cbv zeta. destruct (Qneb (loss_of Close) 0); [|lra].
  unfold Qdiv. apply Qmult_le_0_compat.
  - apply mean_nonneg, where_gain_nonneg.
  - apply Qinv_le_0_compat, mean_nonneg, where_loss_nonneg.
Qed.

Lemma one_plus_rs_pos (Close : pd.Series) : 0 < 1 + rs_of Close.
Proof. pose proof (rs_of_nonneg Close). lra. Qed.

(** ** The RSI of the specification *)

Lemma spec_avgGain_sum (C : list Q) :
  Spec.avgGain C
  = fold_right Qplus 0 (map (fun d => Qmax d 0) (Spec.deltas C))
    / inject_Z (Z.of_nat (Datatypes.length C - 1)).
Proof.
  unfold Spec.avgGain, Spec.mean. rewrite length_map, deltas_length.
  reflexivity.
Qed.

Lemma spec_avgLoss_sum (C : list Q) :
  Spec.avgLoss C
  = fold_right Qplus 0 (map (fun d => Qmax (- d) 0) (Spec.deltas C))
    / inject_Z (Z.of_nat (Datatypes.length C - 1)).
Proof.
  unfold Spec.avgLoss, Spec.mean. rewrite length_map, deltas_length.
  reflexivity.
Qed.

(** The script averages over the [n] rows of [delta], the specification
    over the [n - 1] deltas: the ratio [rs] is the same. *)
Lemma rs_of_spec (Close : pd.Series) :
  (2 <= pd.len Close)%Z -> rs_of Close == Spec.rs Close.
Proof.
  intros Hlen.
  assert (Hne : Close <> [])
    by (intros ->; unfold pd.len in Hlen; cbn in Hlen; lia).
  pose proof (rows_pos Close Hne) as HN.
  assert (HM : 0 < inject_Z (Z.of_nat (Datatypes.length Close - 1))).
  { change 0 with (inject_Z 0). rewrite <- Zlt_Qlt. unfold pd.len in Hlen. lia. }
  pose proof (gain_of_sum Close Hne) as Hg.
  pose proof (loss_of_sum Close Hne) as Hl.
  unfold rs_of, Spec.rs. cbv zeta.
  destruct (Qneb (loss_of Close) 0) eqn:E;
    destruct (Qeq_dec (Spec.avgLoss Close) 0) as [Hs|Hs].
  - apply Qneb_neq in E. exfalso. apply E.
    rewrite spec_avgLoss_sum in Hs. apply Qdiv_zero_num in Hs; [|exact HM].
    rewrite Hl. apply Qdiv_zero_num; assumption.
  - apply Qneb_neq in E.
    rewrite spec_avgLoss_sum in Hs |- *. rewrite spec_avgGain_sum.
    rewrite Hl in E. rewrite Hg, Hl.
    set (G := fold_right Qplus 0 (map (fun d => Qmax d 0) _)) in *.
    set (L := fold_right Qplus 0 (map (fun d => Qmax (- d) 0) _)) in *.
    assert (HL : ~ L == 0).
    { intros H0. apply E. apply Qdiv_zero_num; assumption. }
    field. repeat split; try lra; exact HL.
  - reflexivity.
  - apply Qneb_eq in E. exfalso. apply Hs.
    rewrite Hl in E. apply Qdiv_zero_num in E; [|exact HN].
    rewrite spec_avgLoss_sum. apply Qdiv_zero_num; assumption.
Qed.

(** C7.  For every accepted price series the returned rsi is
    [100 - 100 / (1 + rs)] with [rs = avgGain / avgLoss] (0 when avgLoss is
    0), avgGain and avgLoss the means of [max(d, 0)] and [max(-d, 0)] over
    the [n - 1] day-over-day deltas, zero deltas counted. *)
Theorem rsi_is_spec_rsi history ticker Close :
  accepted history ticker Close ->
  exists r, analyze_stock history ticker = Some r /\ RSI r == Spec.rsi Close.
Proof.
  intros Hacc. eexists. split; [apply analyze_stock_accepted, Hacc|].
  cbn [RSI]. unfold rsi_of, Spec.rsi. cbv zeta.
  rewrite rs_of_spec; [reflexivity|]. destruct Hacc as [_ H]. lia.
Qed.

(** ** A failed analysis *)

(** The steps of the body that can raise are the call of the provider and
    the arithmetic on a column that is not numeric; the length test comes
    before the two row accesses, and float arithmetic does not raise. *)
Lemma analyze_stock_body_raises history ticker e :
  analyze_stock_body history ticker = Raise e <->
  (history ticker = HistoryRaises /\ e = ProviderError) \/
  (exists rows, history ticker = History (NonNumericFrame rows) /\
                (10 <= rows)%nat /\ e = TypeError).
Proof.
  unfold analyze_stock_body, yf_history.
  destruct (history ticker) as [[Close|rows]|] eqn:Hh;
    cbn [py_bind frame_len numeric_Close].
  - split.
    + destruct (pd.len Close <? 10)%Z eqn:E; [discriminate|].
      apply Z.ltb_ge in E. pose proof (ten_rows_nonempty Close E) as Hne.
      rewrite (iloc_last Close Hne). cbn [py_bind].
      rewrite (iloc_first Close Hne). cbn [py_bind]. discriminate.
    + intros [[H _]|(rows & H & _)]; discriminate H.
  - destruct (Z.of_nat rows <? 10)%Z eqn:E.
    + apply Z.ltb_lt in E. split; [discriminate|].
      intros [[H _]|(rows' & H & Hr & _)]; [discriminate H|].
      injection H as <-. lia.
    + apply Z.ltb_ge in E. cbn [py_bind]. split.
      * intros H. injection H as <-. right. exists rows.
        repeat split. lia.
      * intros [[H _]|(rows' & _ & _ & ->)]; [discriminate H | reflexivity].
  - split.
    + intros H. injection H as <-. left. split; reflexivity.
    + intros [[_ ->]|(rows & H & _)]; [reflexivity | discriminate H].
Qed.

(** C5.  A series of fewer than ten rows, and an analysis in which a step
    raises (the provider, or the arithmetic on data that is not numeric),
    make [analyze_stock] return [None], never a partial result; the
    scan then goes on to the next ticker with its results unchanged, and
    the only events of the failed ticker are the call of the provider and
    the progress step. *)
Theorem failed_analysis_is_absent history ticker :
  (forall hist,
      history ticker = History hist -> (frame_len hist < 10)%Z ->
      analyze_stock history ticker = None) /\
  (forall e,
      analyze_stock_body history ticker = Raise e ->
      analyze_stock history ticker = None) /\
  (analyze_stock history ticker = None ->
   forall i n rest results,
     scan_loop history i n (ticker :: rest) results
     = (yf_history_call ticker :: st_progress (inject_Z (i + 1) / inject_Z n)
        :: trace (scan_loop history (i + 1) n rest results),
        snd (scan_loop history (i + 1) n rest results))).
Proof.
  split; [|split].
  - intros hist Hh Hlen. unfold analyze_stock, analyze_stock_body, yf_history.
    rewrite Hh. cbn [py_bind].
    replace (frame_len hist <? 10)%Z with true
      by (symmetry; apply Z.ltb_lt; exact Hlen).
    reflexivity.
  - intros e He. unfold analyze_stock. rewrite He. reflexivity.
  - intros Hnone i n rest results.
    cbn [scan_loop]. unfold call_analyze_stock. rewrite Hnone.
    cbn [emit ret bind app].
    destruct (scan_loop history (i + 1) n rest results) as [tr e].
    reflexivity.
Qed.

(** ** The scan *)

Lemma scan_loop_spec history i n tickers results :
  scan_loop history i n tickers results
  = (scan_events i n tickers, Done (results ++ collect history tickers)).
Proof.
  revert i results. induction tickers as [|t rest IH]; intros i results.
  - cbn. rewrite app_nil_r. reflexivity.
  - cbn [scan_loop scan_events collect flat_map].
    unfold call_analyze_stock. cbn [emit ret bind app].
    rewrite IH. fold (collect history rest).
    destruct (analyze_stock history t); cbn [app];
      rewrite <- ?app_assoc; reflexivity.
Qed.

Lemma firstn_200_short (tickers : list string) :
  (200 <? pd.len tickers)%Z = false -> firstn 200 tickers = tickers.
Proof.
  intros H. apply Z.ltb_ge in H. unfold pd.len in H.
  apply firstn_all2. lia.
Qed.

(** Step 1 returns the universe and step 2 the collected results. *)
Lemma get_list_returns nse mode :
  snd (get_list nse mode) = Done (universe nse mode).
Proof.
  unfold get_list, universe. destruct mode; [reflexivity|].
  destruct (200 <? pd.len (get_all_nse_tickers nse))%Z eqn:E.
  - reflexivity.
  - rewrite (firstn_200_short _ E). reflexivity.
Qed.

Lemma scan_returns history tickers :
  snd (scan history tickers) = Done (collect history tickers).
Proof.
  unfold scan. cbn [emit bind]. rewrite scan_loop_spec. reflexivity.
Qed.

Lemma collect_nil_iff history tickers :
  collect history tickers = []
  <-> forall t, In t tickers -> analyze_stock history t = None.
Proof.
  unfold collect. induction tickers as [|t rest IH]; cbn [flat_map In].
  - split; [intros _ t [] | reflexivity].
  - destruct (analyze_stock history t) eqn:E; cbn [app].
    + split; [discriminate|]. intros H.
      specialize (H t (or_introl eq_refl)). congruence.
    + rewrite IH. split.
      * intros H x [<-|Hx]; [exact E | exact (H x Hx)].
      * intros H x Hx. apply H. right. exact Hx.
Qed.

(** A run with the button pressed: the scan, then either the "no data"
    stop or step 3 on the collected results. *)
Lemma main_spec history nse sort_values mode budget num_stocks :
  main history nse sort_values true mode budget num_stocks
  = match collect history (universe nse mode) with
    | [] => (scan_trace nse mode ++ [st_error_no_data; st_stop], Stopped)
    | (_ :: _) as results =>
        (scan_trace nse mode
         ++ trace (process_and_filter sort_values results budget num_stocks),
         snd (process_and_filter sort_values results budget num_stocks))
    end.
Proof.
  unfold main, scan, scan_trace, universe, get_list.
  destruct mode;
    [| destruct (200 <? pd.len (get_all_nse_tickers nse))%Z eqn:E;
       [| rewrite (firstn_200_short _ E)]];
    cbn [ret emit bind app]; rewrite scan_loop_spec;
    cbn [ret emit bind app];
    (destruct (collect history _) as [|r results];
     [ cbn [stop emit bind app]; reflexivity
     | destruct (process_and_filter _ _ _ _) as [tr e];
       cbn [trace fst snd app]; reflexivity ]).
Qed.

Lemma scan_events_calls i n tickers : calls (scan_events i n tickers) = tickers.
Proof.
  revert i. induction tickers as [|t rest IH]; intros i; [reflexivity|].
  cbn [scan_events calls flat_map app]. f_equal. apply IH.
Qed.

Lemma scan_events_no_allocation i n tickers :
  existsb is_allocation_event (scan_events i n tickers) = false.
Proof.
  revert i. induction tickers as [|t rest IH]; intros i; [reflexivity|].
  cbn [scan_events existsb is_allocation_event orb]. apply IH.
Qed.

Lemma scan_events_no_warning i n tickers :
  ~ In st_warning (scan_events i n tickers).
Proof.
  revert i. induction tickers as [|t rest IH]; intros i; [intros []|].
  cbn [scan_events In]. intros [H|[H|H]]; try discriminate. exact (IH _ H).
Qed.

(** Steps 1 and 2 ask the provider for the tickers of the universe, in
    their order, and show nothing of step 3. *)
Lemma scan_trace_calls nse mode : calls (scan_trace nse mode) = universe nse mode.
Proof.
  unfold scan_trace, calls. cbv zeta. cbn [flat_map app].
  rewrite flat_map_app. cbn [flat_map app]. rewrite flat_map_app.
  fold (calls (scan_events 0 (pd.len (universe nse mode)) (universe nse mode))).
  rewrite scan_events_calls. cbn [flat_map]. rewrite !app_nil_r.
  destruct mode; [reflexivity|].
  cbn [universe]. destruct (200 <? _)%Z; reflexivity.
Qed.

Lemma scan_trace_no_allocation nse mode :
  existsb is_allocation_event (scan_trace nse mode) = false.
Proof.
  unfold scan_trace. cbv zeta. cbn [existsb is_allocation_event orb].
  rewrite existsb_app. cbn [existsb is_allocation_event orb].
  rewrite existsb_app, scan_events_no_allocation. cbn.
  destruct mode; [reflexivity|]. destruct (200 <? _)%Z; reflexivity.
Qed.

(** Step 3 emits events of step 3 only. *)
Lemma process_and_filter_events sort_values results budget num_stocks :
  forallb is_allocation_event
    (trace (process_and_filter sort_values results budget num_stocks)) = true.
Proof.
  unfold process_and_filter, allocation_block. cbv zeta.
  destruct (allocate (sort_values results) budget num_stocks) as [[cap|p t s]|e];
    reflexivity.
Qed.

Lemma allocation_events_calls (tr : list event) :
  forallb is_allocation_event tr = true ->
  calls tr = [] /\ ~ In st_warning tr.
Proof.
  induction tr as [|e tr IH]; [intros _; split; [reflexivity | intros []]|].
  cbn [forallb]. intros H. apply andb_prop in H. destruct H as [He Htr].
  destruct (IH Htr) as [IHc IHw]. split.
  - cbn [calls flat_map]. fold (calls tr). rewrite IHc.
    destruct e; try discriminate He; reflexivity.
  - intros [H|H]; [subst e; discriminate He | exact (IHw H)].
Qed.

(** ** The empty scan *)

(** C8.  When the scan collects no result, the run shows the "no data"
    error and stops there: its trace ends with that error and [st.stop()],
    and holds no event of the allocation. *)
Theorem empty_scan_stops history nse sort_values mode budget num_stocks :
  collect history (universe nse mode) = [] ->
  let run := main history nse sort_values true mode budget num_stocks in
  run = (scan_trace nse mode ++ [st_error_no_data; st_stop], Stopped) /\
  existsb is_allocation_event (trace run) = false.
Proof.
  intros Hempty run. subst run. rewrite main_spec, Hempty. split.
  - reflexivity.
  - cbn [trace fst]. rewrite existsb_app, scan_trace_no_allocation.
    reflexivity.
Qed.

(** ** The cap of the full market *)

(** After steps 1 and 2 a run asks the provider for nothing and shows no
    warning. *)
Lemma main_trace_shape history nse sort_values mode budget num_stocks :
  exists rest,
    trace (main history nse sort_values true mode budget num_stocks)
    = scan_trace nse mode ++ rest /\
    calls rest = [] /\ ~ In st_warning rest.
Proof.
  rewrite main_spec.
  destruct (collect history (universe nse mode)) as [|r results].
  - exists [st_error_no_data; st_stop]. repeat split.
    intros [H|[H|[]]]; discriminate.
  - eexists. split; [reflexivity|].
    apply allocation_events_calls, process_and_filter_events.
Qed.

(** C9.  In full-market mode the provider is asked for the first 200
    symbols of the list, in their order, and for no other; that is at most
    200 tickers, and the warning is shown exactly when the list has more
    than 200 entries. *)
Theorem full_market_scans_first_200 history nse sort_values budget num_stocks :
  let symbols := get_all_nse_tickers nse in
  let tr :=
    trace (main history nse sort_values true Full_Market_Slow budget
             num_stocks) in
  calls tr = firstn 200 symbols /\
  (Datatypes.length (calls tr) <= 200)%nat /\
  (In st_warning tr <-> (200 < Datatypes.length symbols)%nat).
Proof.
  intros symbols tr.
  destruct (main_trace_shape history nse sort_values Full_Market_Slow budget
              num_stocks) as (rest & Htr & Hcalls & Hwarn).
  fold tr in Htr.
  assert (Hc : calls tr = firstn 200 symbols).
  { rewrite Htr. unfold calls. rewrite flat_map_app.
    fold (calls (scan_trace nse Full_Market_Slow)). fold (calls rest).
    rewrite scan_trace_calls, Hcalls. apply app_nil_r. }
  split; [exact Hc|]. split.
  - rewrite Hc. apply firstn_le_length.
  - rewrite Htr, in_app_iff.
    assert (Hscan : In st_warning (scan_trace nse Full_Market_Slow)
                    <-> (200 < Datatypes.length symbols)%nat).
    { unfold scan_trace. cbv zeta. fold symbols.
      destruct (200 <? pd.len symbols)%Z eqn:E.
      - split; [intros _ | intros _; right; left; reflexivity].
        apply Z.ltb_lt in E. unfold pd.len in E. lia.
      - apply Z.ltb_ge in E. unfold pd.len in E.
        split; [|intros H; lia].
        cbn [app In]. intros [H|[H|H]]; try discriminate.
        apply in_app_or in H. destruct H as [H|[H|[]]]; try discriminate.
        exfalso. exact (scan_events_no_warning _ _ _ H). }
    tauto.
Qed.

(** ** Quantities *)

Lemma Qtruncate_inject_Z (z : Z) : Qtruncate (inject_Z z) = z.
Proof. unfold Qtruncate. cbn. apply Z.quot_1_r. Qed.

Lemma combine_map_self {A B} (f : A -> B) (l : list A) :
  combine l (map f l) = map (fun x => (x, f x)) l.
Proof.
  induction l as [|x l IH]; [reflexivity|]. cbn. rewrite IH. reflexivity.
Qed.

(** The cast succeeds exactly when no price of the rows is zero, and then
    the quantities are the floors of the quotients. *)
Lemma astype_int_floordiv (cap : Q) (rows : list result) :
  astype_int (map (fun r => np_floordiv cap (Price r)) rows)
  = if forallb (fun r => Qneb (Price r) 0) rows
    then Ok (map (fun r => Qfloor (cap / Price r)) rows)
    else Raise IntCastingNaNError.
Proof.
  induction rows as [|r rows IH]; [reflexivity|].
  cbn [map astype_int forallb]. unfold np_floordiv at 1, Qneb at 1.
  destruct (Qeq_bool (Price r) 0).
  - cbn [negb andb]. destruct (Qltb 0 cap); [|destruct (Qltb cap 0)]; reflexivity.
  - cbn [negb andb]. rewrite IH.
    destruct (forallb _ rows); [|reflexivity].
    rewrite Qtruncate_inject_Z. reflexivity.
Qed.

(** The branches of the block, by the affordable rows. *)
Lemma allocate_cases (df : list result) (budget num_stocks : Z) :
  num_stocks <> 0%Z ->
  let cap := inject_Z budget / inject_Z num_stocks in
  let affordable := filter (fun r => Qle_bool (Price r) cap) df in
  allocate df budget num_stocks =
  match affordable with
  | [] => Ok (NoAffordableStocks cap)
  | _ :: _ =>
      if forallb (fun r => Qneb (Price r) 0) (head num_stocks affordable)
      then
        let portfolio :=
          filter (fun l => (0 <? Qty l)%Z)
                 (priced cap (head num_stocks affordable)) in
        Ok (Allocated portfolio (pd.sum (map Total_Cost portfolio))
              (inject_Z budget - pd.sum (map Total_Cost portfolio)))
      else Raise IntCastingNaNError
  end.
Proof.
  intros Hn cap affordable. unfold allocate, truediv_int.
  replace (num_stocks =? 0)%Z with false
    by (symmetry; apply Z.eqb_neq; exact Hn).
  cbn [py_bind]. fold cap. cbv zeta. fold affordable.
  destruct affordable as [|r0 rest] eqn:Ha; [reflexivity|].
  rewrite astype_int_floordiv.
  destruct (forallb _ (head num_stocks (r0 :: rest))); [|reflexivity].
  cbn [py_bind]. rewrite combine_map_self, map_map. reflexivity.
Qed.

(** ** No affordable stock *)



(** ** The allocation invariant *)

Lemma in_firstn {A} (k : nat) (l : list A) (x : A) :
  In x (firstn k l) -> In x l.
Proof.
  intros H. rewrite <- (firstn_skipn k l). apply in_or_app. left. exact H.
Qed.

Lemma in_head {A} (n : Z) (l : list A) (x : A) : In x (head n l) -> In x l.
Proof.
  unfold head. destruct (0 <=? n)%Z; apply in_firstn.
Qed.






(** ** No line of quantity zero *)




(** ** The sorted frame *)

Lemma by_score_desc_trans : Transitive by_score_desc.
Proof. unfold by_score_desc. intros a b c Hab Hbc. lia. Qed.

Lemma insert_after_ties_perm (r : result) (l : list result) :
  Permutation (r :: l) (insert_after_ties r l).
Proof.
  induction l as [|x t IH]; [reflexivity|]. cbn [insert_after_ties].
  destruct (Score r <=? Score x)%Z; [|reflexivity].
  rewrite perm_swap. apply perm_skip, IH.
Qed.

Lemma insert_after_ties_hd (x r : result) (l : list result) :
  by_score_desc x r -> HdRel by_score_desc x l ->
  HdRel by_score_desc x (insert_after_ties r l).
Proof.
  intros Hxr Hl. destruct l as [|y t]; cbn [insert_after_ties].
  - constructor. exact Hxr.
  - destruct (Score r <=? Score y)%Z; constructor.
    + inversion Hl. assumption.
    + exact Hxr.
Qed.

Lemma insert_after_ties_sorted (r : result) (l : list result) :
  Sorted by_score_desc l -> Sorted by_score_desc (insert_after_ties r l).
Proof.
  induction 1 as [|x t Ht IH Hx]; cbn [insert_after_ties].
  - repeat constructor.
  - destruct (Score r <=? Score x)%Z eqn:E.
    + constructor; [exact IH|].
      apply insert_after_ties_hd; [|exact Hx].
      unfold by_score_desc. apply Z.leb_le, E.
    + constructor; [constructor; assumption|]. constructor.
      unfold by_score_desc. apply Z.leb_gt in E. lia.
Qed.

(** The tie-reversing sort is a sort by descending score. *)
Lemma sort_ties_reversed_contract : sort_values_contract sort_ties_reversed.
Proof.
  intros df. unfold sort_ties_reversed. induction df as [|r df [IHp IHs]].
  - split; constructor.
  - cbn [fold_right]. split.
    + rewrite <- insert_after_ties_perm. apply perm_skip, IHp.
    + apply insert_after_ties_sorted, IHs.
Qed.

Lemma insert_before_ties_perm (r : result) (l : list result) :
  Permutation (r :: l) (insert_before_ties r l).
Proof.
  induction l as [|x t IH]; [reflexivity|]. cbn [insert_before_ties].
  destruct (Score r <? Score x)%Z; [|reflexivity].
  rewrite perm_swap. apply perm_skip, IH.
Qed.

Lemma insert_before_ties_hd (x r : result) (l : list result) :
  by_score_desc x r -> HdRel by_score_desc x l ->
  HdRel by_score_desc x (insert_before_ties r l).
Proof.
  intros Hxr Hl. destruct l as [|y t]; cbn [insert_before_ties].
  - constructor. exact Hxr.
  - destruct (Score r <? Score y)%Z; constructor.
    + inversion Hl. assumption.
    + exact Hxr.
Qed.

Lemma insert_before_ties_sorted (r : result) (l : list result) :
  Sorted by_score_desc l -> Sorted by_score_desc (insert_before_ties r l).
Proof.
  induction 1 as [|x t Ht IH Hx]; cbn [insert_before_ties].
  - repeat constructor.
  - destruct (Score r <? Score x)%Z eqn:E.
    + constructor; [exact IH|].
      apply insert_before_ties_hd; [|exact Hx].
      unfold by_score_desc. apply Z.ltb_lt in E. lia.
    + constructor; [constructor; assumption|]. constructor.
      unfold by_score_desc. apply Z.ltb_ge in E. exact E.
Qed.

Lemma insert_before_ties_filter (s : Z) (r : result) (l : list result) :
  filter (fun x => (Score x =? s)%Z) (insert_before_ties r l)
  = filter (fun x => (Score x =? s)%Z) (r :: l).
Proof.
  induction l as [|x t IH]; [reflexivity|]. cbn [insert_before_ties].
  destruct (Score r <? Score x)%Z eqn:E; [|reflexivity].
  apply Z.ltb_lt in E. cbn [filter] in IH |- *. rewrite IH.
  destruct (Score x =? s)%Z eqn:Ex, (Score r =? s)%Z eqn:Er; try reflexivity.
  apply Z.eqb_eq in Ex, Er. lia.
Qed.

(** The contract of [sort_values] is also met by a sort that keeps the
    order of equal scores: the contract leaves that order open. *)
Lemma sort_ties_kept_contract :
  sort_values_contract sort_ties_kept /\
  forall df, keeps_tie_order df (sort_ties_kept df).
Proof.
  split.
  - intros df. unfold sort_ties_kept. induction df as [|r df [IHp IHs]].
    + split; constructor.
    + cbn [fold_right]. split.
      * rewrite <- insert_before_ties_perm. apply perm_skip, IHp.
      * apply insert_before_ties_sorted, IHs.
  - intros df s. unfold sort_ties_kept. induction df as [|r df IH].
    + reflexivity.
    + cbn [fold_right]. rewrite insert_before_ties_filter.
      cbn [filter]. rewrite IH. reflexivity.
Qed.






(** * The theorems at concrete runs *)

Lemma accepted_rising : accepted Run.history "A.NS" Run.rising.
Proof. split; [reflexivity | vm_compute; discriminate]. Defined.

Lemma accepted_zigzag : accepted Run.history "Z.NS" Run.zigzag.
Proof. split; [reflexivity | vm_compute; discriminate]. Defined.

(** C1 at ten rising closes. *)
Lemma rsi_zero_without_losses_witness :
  accepted Run.history "A.NS" Run.rising /\
  Forall (fun d => 0 <= d) (Spec.deltas Run.rising) /\
  loss_of Run.rising == 0 /\
  rs_of Run.rising = 0 /\
  exists r, analyze_stock Run.history "A.NS" = Some r /\ RSI r == 0.
Proof.
  assert (Hup : Forall (fun d => 0 <= d) (Spec.deltas Run.rising))
    by (repeat constructor; vm_compute; discriminate).
  split; [exact accepted_rising|]. split; [exact Hup|].
  exact (rsi_zero_without_losses Run.history "A.NS" Run.rising
           accepted_rising Hup).
Defined.


(** C7 at the zigzag, where gains and losses are both present. *)
Lemma rsi_is_spec_rsi_witness :
  accepted Run.history "Z.NS" Run.zigzag /\
  exists r,
    analyze_stock Run.history "Z.NS" = Some r /\ RSI r == Spec.rsi Run.zigzag.
Proof.
  split; [exact accepted_zigzag|].
  exact (rsi_is_spec_rsi Run.history "Z.NS" Run.zigzag accepted_zigzag).
Defined.

(** C5 at a series of two rows, at twelve rows that are not numeric, and
    at a ticker on which the provider raises. *)
Lemma failed_analysis_is_absent_witness :
  (frame_len (Frame [1; 2]%Q) < 10)%Z /\
  analyze_stock Run.history "C.NS" = None /\
  analyze_stock_body Run.history "N.NS" = Raise TypeError /\
  analyze_stock Run.history "N.NS" = None /\
  analyze_stock_body Run.history "D.NS" = Raise ProviderError /\
  analyze_stock Run.history "D.NS" = None /\
  collect Run.history ["C.NS"; "A.NS"; "N.NS"; "D.NS"]%string
  = collect Run.history ["A.NS"]%string.
Proof.
  assert (Hlen : (frame_len (Frame [1; 2]%Q) < 10)%Z) by reflexivity.
  split; [exact Hlen|]. split.
  - exact (proj1 (failed_analysis_is_absent Run.history "C.NS")
             (Frame [1; 2]) eq_refl Hlen).
  - split; [reflexivity|]. split.
    + exact (proj1 (proj2 (failed_analysis_is_absent Run.history "N.NS"))
               TypeError eq_refl).
    + split; [reflexivity|]. split.
      * exact (proj1 (proj2 (failed_analysis_is_absent Run.history "D.NS"))
                 ProviderError eq_refl).
      * reflexivity.
Defined.

(** The run on an empty universe: the archive cannot be fetched. *)
Example empty_universe_run :
  main Run.no_history RequestRaises sort_ties_kept true Full_Market_Slow
    50000 5
  = ([st_spinner; st_progress 0; st_progress_empty; st_error_no_data;
      st_stop], Stopped).
Proof. reflexivity. Qed.

(** C8 at the Nifty 50 list when the provider raises on every ticker. *)
Lemma empty_scan_stops_witness :
  collect Run.no_history (universe RequestRaises Nifty_50_Fast) = [] /\
  main Run.no_history RequestRaises sort_ties_reversed true Nifty_50_Fast
    50000 5
  = (scan_trace RequestRaises Nifty_50_Fast ++ [st_error_no_data; st_stop],
     Stopped) /\
  existsb is_allocation_event
    (trace (main Run.no_history RequestRaises sort_ties_reversed true
              Nifty_50_Fast 50000 5)) = false.
Proof.
  assert (Hempty :
    collect Run.no_history (universe RequestRaises Nifty_50_Fast) = [])
    by reflexivity.
  split; [exact Hempty|].
  exact (empty_scan_stops Run.no_history RequestRaises sort_ties_reversed
           Nifty_50_Fast 50000 5 Hempty).
Defined.

(** C9 at an archive of 350 symbols: 200 of them are scanned and the
    warning is shown. *)
Lemma full_market_scans_first_200_witness :
  let tr :=
    trace (main Run.no_history Run.nse_350 sort_ties_reversed true
             Full_Market_Slow 50000 5) in
  Datatypes.length (get_all_nse_tickers Run.nse_350) = 350%nat /\
  calls tr = firstn 200 (get_all_nse_tickers Run.nse_350) /\
  Datatypes.length (calls tr) = 200%nat /\
  In st_warning tr.
Proof.
  intros tr.
  assert (Hlen : Datatypes.length (get_all_nse_tickers Run.nse_350) = 350%nat)
    by (vm_compute; reflexivity).
  destruct (full_market_scans_first_200 Run.no_history Run.nse_350
              sort_ties_reversed 50000 5) as (Hcalls & _ & Hwarn).
  fold tr in Hcalls, Hwarn.
  split; [exact Hlen|]. split; [exact Hcalls|]. split.
  - rewrite Hcalls, length_firstn, Hlen. reflexivity.
  - apply Hwarn. rewrite Hlen. lia.
Defined.





(** * Further properties of the script *)

(** ** The dict of analyze_stock *)

(** A result comes from an accepted series, and is the dict of that
    series. *)
Lemma analyze_stock_some history ticker r :
  analyze_stock history ticker = Some r ->
  exists Close,
    accepted history ticker Close /\
    r = {| Ticker := replace_NS ticker;
           Price := last Close 0;
           Score := score_of (rsi_of Close) (last Close 0) (sma_20_of Close)
                      (momentum_of (last Close 0) (hd 0 Close));
           RSI := rsi_of Close;
           Trend := if Qltb (sma_20_of Close) (last Close 0)
                    then Bullish else Bearish |}.
Proof.
  intros Hr.
  destruct (history ticker) as [[Close|rows]|] eqn:Hh.
  - destruct (Z_lt_le_dec (pd.len Close) 10) as [Hlt|Hge].
    + exfalso. revert Hr. unfold analyze_stock, analyze_stock_body, yf_history.
      rewrite Hh. cbn [py_bind frame_len].
      replace (pd.len Close <? 10)%Z with true
        by (symmetry; apply Z.ltb_lt; exact Hlt).
      discriminate.
    + exists Close. assert (Hacc : accepted history ticker Close)
        by (split; assumption).
      split; [exact Hacc|].
      rewrite (analyze_stock_accepted _ _ _ Hacc) in Hr. congruence.
  - exfalso. revert Hr. unfold analyze_stock, analyze_stock_body, yf_history.
    rewrite Hh. cbn [py_bind frame_len numeric_Close].
    destruct (Z.of_nat rows <? 10)%Z; discriminate.
  - exfalso. revert Hr. unfold analyze_stock, analyze_stock_body, yf_history.
    rewrite Hh. discriminate.
Qed.



(** ** When the RSI is zero, and what it is otherwise *)

Lemma sum_nonneg_zero_iff (f : Q -> Q) (ds : list Q) :
  (forall d, 0 <= f d) ->
  0 <= fold_right Qplus 0 (map f ds) /\
  (fold_right Qplus 0 (map f ds) == 0 <-> Forall (fun d => f d == 0) ds).
Proof.
  intros Hf. induction ds as [|d ds [IH0 IH]]; cbn [map fold_right].
  - split; [lra|]. split; [constructor | reflexivity].
  - pose proof (Hf d) as Hd. split; [lra|]. split.
    + intros H. constructor; [lra|]. apply IH. lra.
    + intros H. inversion H as [|? ? H1 H2]; subst.
      apply IH in H2. lra.
Qed.

Lemma Qmax_0_nonneg (d : Q) : 0 <= Qmax d 0.
Proof. apply Q.le_max_r. Qed.

Lemma Qmax_0_zero_iff (d : Q) : Qmax d 0 == 0 <-> d <= 0.
Proof.
  split; intros H.
  - rewrite <- H. apply Q.le_max_l.
  - apply Q.max_r, H.
Qed.


Lemma total_loss_zero_iff (Close : pd.Series) :
  total_loss Close == 0 <-> Forall (fun d => 0 <= d) (Spec.deltas Close).
Proof.
  unfold total_loss.
  rewrite (proj2 (sum_nonneg_zero_iff (fun d => Qmax (- d) 0) _
                    (fun d => Qmax_0_nonneg (- d)))).
  split; apply Forall_impl; intros d; rewrite Qmax_0_zero_iff; lra.
Qed.

Lemma total_gain_nonneg (Close : pd.Series) : 0 <= total_gain Close.
Proof.
  apply (sum_nonneg_zero_iff (fun d => Qmax d 0) _ Qmax_0_nonneg).
Qed.

Lemma total_loss_nonneg (Close : pd.Series) : 0 <= total_loss Close.
Proof.
  apply (sum_nonneg_zero_iff (fun d => Qmax (- d) 0) _
           (fun d => Qmax_0_nonneg (- d))).
Qed.

(** [rs] is the ratio of the rises to the falls, and 0 without a fall. *)
Lemma rs_of_totals (Close : pd.Series) :
  Close <> [] ->
  (total_loss Close == 0 -> rs_of Close = 0) /\
  (~ total_loss Close == 0 ->
   rs_of Close == total_gain Close / total_loss Close).
Proof.
  intros Hne. pose proof (rows_pos Close Hne) as HN.
  pose proof (gain_of_sum Close Hne) as Hg.
  pose proof (loss_of_sum Close Hne) as Hl.
  fold (total_gain Close) in Hg. fold (total_loss Close) in Hl.
  unfold rs_of. cbv zeta. split; intros HL.
  - assert (H0 : loss_of Close == 0)
      by (rewrite Hl; apply Qdiv_zero_num; assumption).
    rewrite (proj2 (Qneb_eq _ _) H0). reflexivity.
  - assert (H0 : ~ loss_of Close == 0).
    { intros H. apply HL. rewrite Hl in H.
      apply Qdiv_zero_num in H; assumption. }
    rewrite (proj2 (Qneb_neq _ _) H0), Hg, Hl. field.
    split; [exact HL | lra].
Qed.



(** X3.  When an accepted series has a falling day, its RSI is the share
    of the rises in the whole movement, [100 * gain / (gain + loss)], with
    the sums taken over the day-over-day deltas. *)
Theorem rsi_is_share_of_gains history ticker Close :
  accepted history ticker Close ->
  Exists (fun d => d < 0) (Spec.deltas Close) ->
  0 < total_loss Close /\
  exists r,
    analyze_stock history ticker = Some r /\
    RSI r == 100 * total_gain Close / (total_gain Close + total_loss Close).
Proof.
  intros Hacc Hfall. pose proof (ten_rows_nonempty Close (proj2 Hacc)) as Hne.
  pose proof (total_loss_nonneg Close) as HLn.
  pose proof (total_gain_nonneg Close) as HGn.
  assert (HL : ~ total_loss Close == 0).
  { rewrite total_loss_zero_iff. intros Hall.
    rewrite Exists_exists in Hfall. destruct Hfall as (d & Hd & Hneg).
    rewrite Forall_forall in Hall. specialize (Hall d Hd). lra. }
  assert (HLp : 0 < total_loss Close).
  { apply Qle_lt_or_eq in HLn. destruct HLn as [H|H]; [exact H|].
    exfalso. apply HL. symmetry. exact H. }
  split; [exact HLp|].
  eexists. split; [apply analyze_stock_accepted, Hacc|].
  cbn [RSI]. unfold rsi_of. cbv zeta.
  rewrite (proj2 (rs_of_totals Close Hne) HL). field. split; lra.
Qed.

(** ** Momentum, trend and score *)

Lemma Qdiv_pos_iff (a b : Q) : 0 < b -> (0 < a / b <-> 0 < a).
Proof.
  intros Hb. split; intros H.
  - setoid_replace a with (a / b * b) by (field; lra).
    apply Qmult_lt_0_compat; assumption.
  - apply Qlt_shift_div_l; lra.
Qed.

(** X4.  The +10 of [momentum > 0] is given exactly when the last close is
    above a positive first close, or below a negative one, or positive with
    a first close of 0 (where the division gives [inf]). *)
Theorem momentum_bonus_iff (current first : Q) :
  np_gt0 (momentum_of current first) = true <->
  (0 < first /\ first < current) \/
  (first == 0 /\ 0 < current) \/
  (first < 0 /\ current < first).
Proof.
  unfold momentum_of, np_truediv.
  destruct (Qeq_bool first 0) eqn:E.
  - apply Qeq_bool_iff in E.
    destruct (Qltb 0 (current - first)) eqn:E1.
    + apply Qltb_lt in E1. cbn [np_gt0]. split; [intros _ | reflexivity].
      right. left. split; [exact E | lra].
    + apply Qltb_ge in E1.
      assert (Hfalse : ~ ((0 < first /\ first < current) \/
                          (first == 0 /\ 0 < current) \/
                          (first < 0 /\ current < first))) by lra.
      destruct (Qltb (current - first) 0); cbn [np_gt0];
        (split; [discriminate | intros H; contradiction]).
  - assert (Hne : ~ first == 0).
    { intros H. apply Qeq_bool_iff in H. congruence. }
    cbn [np_gt0]. rewrite Qltb_lt.
    destruct (Qlt_le_dec 0 first) as [Hpos|Hneg].
    + rewrite (Qdiv_pos_iff _ _ Hpos). lra.
    + assert (Hlt : 0 < - first).
      { apply Qle_lt_or_eq in Hneg. destruct Hneg as [H|H]; [lra | contradiction]. }
      setoid_replace ((current - first) / first)
        with ((first - current) / - first) by (field; exact Hne).
      rewrite (Qdiv_pos_iff _ _ Hlt). lra.
Qed.

(** X5.  The score of a result is one of eight values; a Bullish result
    scores at least 50 and a Bearish one at most 75. *)
Theorem score_values_and_trend history ticker r :
  analyze_stock history ticker = Some r ->
  In (Score r) [35; 45; 50; 60; 65; 75; 80; 90]%Z /\
  (Trend r = Bullish -> (50 <= Score r)%Z) /\
  (Trend r = Bearish -> (Score r <= 75)%Z).
Proof.
  intros Hr. apply analyze_stock_some in Hr. destruct Hr as (Close & _ & ->).
  cbn [Score Trend]. unfold score_of. cbv zeta.
  destruct (Qltb (rsi_of Close) 35), (Qltb 70 (rsi_of Close)),
    (Qltb (sma_20_of Close) (last Close 0)),
    (np_gt0 (momentum_of (last Close 0) (hd 0 Close)));
    cbn; (split; [tauto | split; intros H; try discriminate H; lia]).
Qed.

Lemma last_app_nonempty {A} (l1 l2 : list A) (d : A) :
  l2 <> [] -> last (l1 ++ l2) d = last l2 d.
Proof.
  intros Hne. induction l1 as [|x l1 IH]; [reflexivity|].
  cbn [app]. destruct (l1 ++ l2) eqn:E.
  - apply app_eq_nil in E. destruct E. contradiction.
  - cbn [last]. exact IH.
Qed.

Lemma tail_20_app (old recent : pd.Series) :
  Datatypes.length recent = 20%nat -> pd.tail 20 (old ++ recent) = recent.
Proof.
  intros H. unfold pd.tail. rewrite length_app, H.
  replace (Datatypes.length old + 20 - 20)%nat with (Datatypes.length old)
    by lia.
  rewrite skipn_app, skipn_all, Nat.sub_diag. reflexivity.
Qed.

(** X6.  The price and the trend of a result depend on the last 20 closes
    only: two series that end with the same 20 closes give the same
    [Price] and the same [Trend], whatever comes before. *)
Theorem price_and_trend_from_last_20
    history ticker history' ticker' (old old' recent : pd.Series) :
  Datatypes.length recent = 20%nat ->
  history ticker = History (Frame (old ++ recent)) ->
  history' ticker' = History (Frame (old' ++ recent)) ->
  exists r r',
    analyze_stock history ticker = Some r /\
    analyze_stock history' ticker' = Some r' /\
    Price r = Price r' /\ Trend r = Trend r'.
Proof.
  intros Hlen Hh Hh'.
  assert (Hne : recent <> []) by (intros ->; discriminate Hlen).
  assert (Hacc : accepted history ticker (old ++ recent)).
  { split; [exact Hh|]. unfold pd.len. rewrite length_app, Hlen. lia. }
  assert (Hacc' : accepted history' ticker' (old' ++ recent)).
  { split; [exact Hh'|]. unfold pd.len. rewrite length_app, Hlen. lia. }
  do 2 eexists. split; [apply analyze_stock_accepted, Hacc|].
  split; [apply analyze_stock_accepted, Hacc'|].
  cbn [Price Trend]. unfold sma_20_of.
  rewrite !tail_20_app by exact Hlen.
  rewrite !last_app_nonempty by exact Hne. split; reflexivity.
Qed.

(** ** The label of a result *)

Lemma replace_NS_match (rest : string) :
  replace_NS (String "." (String "N" (String "S" rest))) = replace_NS rest.
Proof. reflexivity. Qed.

Lemma replace_NS_nomatch (c : ascii) (s : string) :
  prefix ".NS" (String c s) = false ->
  replace_NS (String c s) = String c (replace_NS s).
Proof.
  intros H.
  destruct c as [[] [] [] [] [] [] [] []]; try reflexivity.
  destruct s as [|c2 s2]; [reflexivity|].
  destruct c2 as [[] [] [] [] [] [] [] []]; try reflexivity.
  destruct s2 as [|c3 s3]; [reflexivity|].
  destruct c3 as [[] [] [] [] [] [] [] []]; try reflexivity.
  destruct s3; vm_compute in H; discriminate H.
Qed.

Lemma prefix_NS_true (a : string) :
  prefix ".NS" a = true ->
  exists rest, a = String "." (String "N" (String "S" rest)).
Proof.
  intros H.
  destruct a as [|c1 a1]; [discriminate H|]. cbn [prefix] in H.
  destruct (ascii_dec "." c1) as [<-|]; [|discriminate H].
  destruct a1 as [|c2 a2]; [discriminate H|]. cbn [prefix] in H.
  destruct (ascii_dec "N" c2) as [<-|]; [|discriminate H].
  destruct a2 as [|c3 a3]; [discriminate H|]. cbn [prefix] in H.
  destruct (ascii_dec "S" c3) as [<-|]; [|discriminate H].
  exists a3. reflexivity.
Qed.

(** No occurrence of [".NS"] starts in [a] and ends in a [t] that begins
    with a dot. *)
Lemma prefix_NS_app (a t : string) :
  prefix ".NS" a = false -> a <> EmptyString ->
  t = EmptyString \/ (exists t', t = String "." t') ->
  prefix ".NS" (a ++ t) = false.
Proof.
  intros H Hne Ht.
  assert (HN : prefix "NS" t = false)
    by (destruct Ht as [->|[t' ->]]; reflexivity).
  assert (HS : prefix "S" t = false)
    by (destruct Ht as [->|[t' ->]]; reflexivity).
  destruct a as [|c1 a1]; [congruence|].
  cbn [append prefix] in H |- *.
  destruct (ascii_dec "." c1); [|reflexivity].
  destruct a1 as [|c2 a2]; [exact HN|].
  cbn [append prefix] in H |- *.
  destruct (ascii_dec "N" c2); [|reflexivity].
  destruct a2 as [|c3 a3]; [exact HS|].
  cbn [append prefix] in H |- *.
  destruct (ascii_dec "S" c3); [|reflexivity].
  destruct a3; cbn in H; discriminate H.
Qed.

Lemma replace_NS_app_le (n : nat) :
  forall a t : string,
    (String.length a <= n)%nat ->
    t = EmptyString \/ (exists t', t = String "." t') ->
    replace_NS (a ++ t) = (replace_NS a ++ replace_NS t)%string.
Proof.
  induction n as [|n IH]; intros a t Hlen Ht.
  - destruct a; [reflexivity | cbn in Hlen; lia].
  - destruct a as [|c a']; [reflexivity|].
    destruct (prefix ".NS" (String c a')) eqn:E.
    + apply prefix_NS_true in E. destruct E as [rest E].
      injection E as -> ->. cbn [append].
      rewrite !replace_NS_match. apply IH; [|exact Ht].
      cbn [String.length] in Hlen. lia.
    + rewrite (replace_NS_nomatch c a' E).
      pose proof (prefix_NS_app (String c a') t E ltac:(discriminate) Ht) as E'.
      cbn [append] in E' |- *. rewrite (replace_NS_nomatch _ _ E').
      f_equal. apply IH; [|exact Ht]. cbn [String.length] in Hlen. lia.
Qed.

Lemma replace_NS_without (s : string) : has_NS s = false -> replace_NS s = s.
Proof.
  induction s as [|c s IH]; [reflexivity|]. cbn [has_NS]. intros H.
  apply orb_false_iff in H. destruct H as [Hp Hs].
  rewrite (replace_NS_nomatch c s Hp), (IH Hs). reflexivity.
Qed.

Lemma append_empty_r (s : string) : (s ++ "")%string = s.
Proof.
  induction s as [|c s IH]; [reflexivity|]. cbn [append]. rewrite IH.
  reflexivity.
Qed.

(** X7.  The label of a result is the NSE symbol its ticker was built from:
    for a symbol that holds no [".NS"], the analysis of
    [symbol ++ ".NS"] is labelled [symbol]. *)
Theorem label_is_symbol history (symbol : string) Close :
  has_NS symbol = false ->
  accepted history (symbol ++ ".NS")%string Close ->
  exists r,
    analyze_stock history (symbol ++ ".NS")%string = Some r /\
    Ticker r = symbol.
Proof.
  intros Hno Hacc. eexists. split; [apply analyze_stock_accepted, Hacc|].
  cbn [Ticker].
  rewrite (replace_NS_app_le (String.length symbol) symbol ".NS" (le_n _))
    by (right; eexists; reflexivity).
  rewrite (replace_NS_without symbol Hno). apply append_empty_r.
Qed.

(** X8.  [replace] removes [".NS"] wherever it stands, not only at the
    end: the label of [a ++ ".NS" ++ b] is the label of [a] followed by the
    label of [b]. *)
Theorem label_drops_every_NS (a b : string) :
  replace_NS (a ++ ".NS" ++ b) = (replace_NS a ++ replace_NS b)%string.
Proof.
  rewrite (replace_NS_app_le (String.length a) a (".NS" ++ b) (le_n _))
    by (right; eexists; reflexivity).
  reflexivity.
Qed.

(** ** The scan *)

Lemma scan_events_progress (i n : Z) (tickers : list string) :
  progress_values (scan_events i n tickers)
  = map (fun k => inject_Z (i + Z.of_nat k) / inject_Z n)
        (seq 1 (Datatypes.length tickers)).
Proof.
  revert i. induction tickers as [|t rest IH]; intros i; [reflexivity|].
  cbn [scan_events progress_values flat_map app Datatypes.length seq map].
  fold (progress_values (scan_events (i + 1) n rest)).
  f_equal. rewrite IH, <- (seq_shift (Datatypes.length rest) 1), map_map.
  apply map_ext.
  intros k. do 2 f_equal. lia.
Qed.

(** X9.  The progress bar of a scan of [n] tickers is given 0 and then
    [1/n], [2/n], ..., [n/n], one value after each ticker whether its
    analysis succeeds or not. *)
Theorem scan_progress_steps history (tickers : list string) :
  progress_values (trace (scan history tickers))
  = 0 :: map (fun k => inject_Z (Z.of_nat k) / inject_Z (pd.len tickers))
             (seq 1 (Datatypes.length tickers)).
Proof.
  unfold scan. cbn [emit bind]. rewrite scan_loop_spec.
  cbn [emit ret bind app trace fst progress_values flat_map].
  f_equal. unfold progress_values in *. rewrite !flat_map_app.
  cbn [flat_map app]. rewrite !app_nil_r.
  apply (scan_events_progress 0).
Qed.

Lemma analyze_stock_label history ticker r :
  analyze_stock history ticker = Some r -> Ticker r = replace_NS ticker.
Proof.
  intros Hr. apply analyze_stock_some in Hr. destruct Hr as (Close & _ & ->).
  reflexivity.
Qed.

(** X10.  A scan collects one result for each ticker whose analysis
    succeeds, in the order of the tickers: the labels of the results are
    the labels of those tickers, and there are no more results than
    tickers. *)
Theorem scan_keeps_ticker_order history (tickers : list string) :
  snd (scan history tickers) = Done (collect history tickers) /\
  map Ticker (collect history tickers)
  = map replace_NS (filter (analyzed history) tickers) /\
  (Datatypes.length (collect history tickers)
   <= Datatypes.length tickers)%nat.
Proof.
  split; [apply scan_returns|].
  unfold collect, analyzed.
  induction tickers as [|t rest [IHm IHl]]; [split; [reflexivity | apply le_n]|].
  cbn [flat_map filter]. destruct (analyze_stock history t) as [r|] eqn:E.
  - cbn [app map Datatypes.length]. rewrite IHm.
    rewrite (analyze_stock_label _ _ _ E). split; [reflexivity | lia].
  - cbn [app Datatypes.length]. split; [exact IHm | lia].
Qed.

Lemma scan_trace_nifty_no_warning nse :
  ~ In st_warning (scan_trace nse Nifty_50_Fast).
Proof.
  unfold scan_trace, universe. cbv zeta.
  generalize get_nifty50_tickers as tickers. intros tickers.
  cbn [app]. intros [H|[H|H]]; [discriminate H | discriminate H |].
  apply in_app_or in H. destruct H as [H|[H|[]]].
  - exact (scan_events_no_warning _ _ _ H).
  - discriminate H.
Qed.

(** X11.  In Nifty 50 mode a run asks the provider for the 50 listed
    tickers, each once and in the order of the list, and never shows the
    warning of the cap, whatever the NSE archive answers and however the
    run ends. *)
Theorem nifty_run_scans_the_list history nse sort_values budget num_stocks :
  let tr :=
    trace (main history nse sort_values true Nifty_50_Fast budget
             num_stocks) in
  calls tr = get_nifty50_tickers /\
  Datatypes.length (calls tr) = 50%nat /\
  ~ In st_warning tr.
Proof.
  intros tr.
  destruct (main_trace_shape history nse sort_values Nifty_50_Fast budget
              num_stocks) as (rest & Htr & Hcalls & Hwarn).
  fold tr in Htr.
  assert (Hc : calls tr = get_nifty50_tickers).
  { rewrite Htr. unfold calls. rewrite flat_map_app.
    fold (calls (scan_trace nse Nifty_50_Fast)). fold (calls rest).
    rewrite scan_trace_calls, Hcalls. apply app_nil_r. }
  split; [exact Hc|]. split; [rewrite Hc; reflexivity|]. clear Hc.
  rewrite Htr, in_app_iff. intros [H|H]; [|exact (Hwarn H)].
  exact (scan_trace_nifty_no_warning nse H).
Qed.

(** X12.  When the NSE archive cannot be used (the request raises, the
    status is not 200, or the answer cannot be parsed), a full-market run
    asks the provider for nothing and stops with the "no data" error. *)
Theorem full_market_without_archive history nse sort_values budget num_stocks :
  nse = RequestRaises \/
  (exists status_code csv,
      nse = Response status_code csv /\
      (status_code <> 200%Z \/ csv = None)) ->
  get_all_nse_tickers nse = [] /\
  main history nse sort_values true Full_Market_Slow budget num_stocks
  = ([st_spinner; st_progress 0; st_progress_empty; st_error_no_data;
      st_stop], Stopped).
Proof.
  intros Hnse.
  assert (Hnil : get_all_nse_tickers nse = []).
  { destruct Hnse as [Hr|(code & csv & Hr & Hbad)]; subst nse;
      [reflexivity|]. destruct Hbad as [Hc|Hc]; [|subst csv].
    - cbn [get_all_nse_tickers].
      replace (code =? 200)%Z with false
        by (symmetry; apply Z.eqb_neq; exact Hc).
      reflexivity.
    - cbn [get_all_nse_tickers]. destruct (code =? 200)%Z; reflexivity. }
  split; [exact Hnil|].
  rewrite main_spec. unfold universe, scan_trace, universe. rewrite Hnil.
  reflexivity.
Qed.

(** ** The lines of an allocation *)

(** What an allocation is made of. *)
Lemma allocate_allocated (df : list result) (budget num_stocks : Z)
    (portfolio : list line) (total_invested savings : Q) :
  num_stocks <> 0%Z ->
  allocate df budget num_stocks
  = Ok (Allocated portfolio total_invested savings) ->
  let cap := inject_Z budget / inject_Z num_stocks in
  let rows := head num_stocks (affordable cap df) in
  Forall (fun r => ~ Price r == 0) rows /\
  portfolio = filter (fun l => (0 <? Qty l)%Z) (priced cap rows) /\
  total_invested = pd.sum (map Total_Cost portfolio) /\
  savings = inject_Z budget - total_invested.
Proof.
  intros Hn Halloc cap rows. subst rows. unfold affordable.
  rewrite allocate_cases in Halloc by exact Hn. cbv zeta in Halloc.
  fold cap in Halloc.
  destruct (filter _ df) as [|r0 rest]; [discriminate|].
  destruct (forallb _ _) eqn:Hnz; [|discriminate].
  injection Halloc as Hp Ht Hs. rewrite Hp in Ht, Hs. rewrite Ht in Hs.
  repeat split; try (symmetry; assumption).
  apply Forall_forall. intros r Hr. rewrite forallb_forall in Hnz.
  apply Qneb_neq, Hnz, Hr.
Qed.





(** ** The table of a run *)

Lemma StronglySorted_filter {A} (R : A -> A -> Prop) (f : A -> bool)
    (l : list A) :
  StronglySorted R l -> StronglySorted R (filter f l).
Proof.
  induction 1 as [|x l Hl IH Hx]; cbn [filter]; [constructor|].
  destruct (f x); [|exact IH]. constructor; [exact IH|].
  rewrite Forall_forall in Hx |- *. intros y Hy. apply filter_In in Hy.
  apply Hx, Hy.
Qed.

Lemma StronglySorted_firstn {A} (R : A -> A -> Prop) (k : nat) (l : list A) :
  StronglySorted R l -> StronglySorted R (firstn k l).
Proof.
  intros Hs. revert k. induction Hs as [|x l Hl IH Hx]; intros k.
  - rewrite firstn_nil. constructor.
  - destruct k as [|k]; cbn [firstn]; constructor; [apply IH|].
    rewrite Forall_forall in Hx |- *. intros y Hy. apply Hx.
    exact (in_firstn _ _ _ Hy).
Qed.

Lemma priced_rows (cap : Q) (rows : list result) :
  map row (filter (fun l => (0 <? Qty l)%Z) (priced cap rows))
  = filter (fun r => (0 <? Qfloor (cap / Price r))%Z) rows.
Proof.
  induction rows as [|r rows IH]; [reflexivity|].
  cbn [priced map filter Qty]. fold (priced cap rows).
  destruct (0 <? Qfloor (cap / Price r))%Z; cbn [map row]; rewrite IH;
    reflexivity.
Qed.

(** The rows of the portfolio of a sorted frame are rows of the frame, in
    non-increasing score order. *)
Lemma portfolio_rows_sorted (df : list result) (budget num_stocks : Z)
    (portfolio : list line) (total_invested savings : Q) :
  Sorted by_score_desc df ->
  allocate df budget num_stocks
  = Ok (Allocated portfolio total_invested savings) ->
  StronglySorted by_score_desc (map row portfolio) /\
  incl (map row portfolio) df.
Proof.
  intros Hs Halloc.
  destruct (Z.eq_dec num_stocks 0) as [->|Hn].
  { unfold allocate, truediv_int in Halloc. cbn in Halloc. discriminate. }
  destruct (allocate_allocated df budget num_stocks _ _ _ Hn Halloc)
    as (_ & Hp & _). rewrite Hp, priced_rows. split.
  - apply StronglySorted_filter. unfold head.
    destruct (0 <=? num_stocks)%Z; apply StronglySorted_firstn;
      apply StronglySorted_filter, Sorted_StronglySorted;
      solve [exact by_score_desc_trans | exact Hs].
  - intros r Hr. apply filter_In in Hr. destruct Hr as [Hr _].
    apply in_head in Hr. unfold affordable in Hr. apply filter_In in Hr.
    apply Hr.
Qed.

Lemma scan_trace_no_dataframe nse mode display_df :
  ~ In (st_dataframe display_df) (scan_trace nse mode).
Proof.
  intros H. pose proof (scan_trace_no_allocation nse mode) as Hno.
  assert (Hex : existsb is_allocation_event (scan_trace nse mode) = true)
    by (apply existsb_exists; eexists; split; [exact H | reflexivity]).
  congruence.
Qed.

(** X16.  Whatever the sort does with equal scores, the table a run shows
    lists results the scan collected, in non-increasing score order. *)
Theorem shown_table_sorted
    history nse (sort : list result -> list result) mode budget num_stocks
    (display_df : list line) :
  sort_values_contract sort ->
  In (st_dataframe display_df)
     (trace (main history nse sort true mode budget num_stocks)) ->
  StronglySorted by_score_desc (map row display_df) /\
  incl (map row display_df) (collect history (universe nse mode)).
Proof.
  intros Hsort Hin. rewrite main_spec in Hin.
  destruct (collect history (universe nse mode)) as [|r0 results] eqn:Hc.
  - exfalso. cbn [trace fst] in Hin. apply in_app_or in Hin.
    destruct Hin as [H|[H|[H|[]]]]; try discriminate H.
    exact (scan_trace_no_dataframe _ _ _ H).
  - cbn [trace fst] in Hin. apply in_app_or in Hin.
    destruct Hin as [H|H]; [exfalso; exact (scan_trace_no_dataframe _ _ _ H)|].
    destruct (Hsort (r0 :: results)) as [Hperm Hsorted].
    unfold process_and_filter, allocation_block in H. cbv zeta in H.
    destruct (allocate (sort (r0 :: results)) budget num_stocks)
      as [[cap|p t s]|e] eqn:Ha.
    + exfalso. destruct H as [H|[]]. discriminate H.
    + assert (Hp : display_df = p).
      { cbn in H. destruct H as [H|[H|[H|[H|[H|[H|[]]]]]]];
          try discriminate H. injection H as <-. reflexivity. }
      subst p.
      destruct (portfolio_rows_sorted _ _ _ _ _ _ Hsorted Ha) as [H1 H2].
      split; [exact H1|]. intros r Hr.
      eapply Permutation_in; [apply Permutation_sym; exact Hperm|].
      apply H2, Hr.
    + exfalso. destruct H.
Qed.



(** ** What is fetched, and when an analysis succeeds *)

Lemma get_all_nse_tickers_in (nse : nse_response) (t : string) :
  In t (get_all_nse_tickers nse) ->
  exists csv row,
    nse = Response 200 (Some csv) /\ In row csv /\
    SERIES row = "EQ"%string /\ t = (SYMBOL row ++ ".NS")%string.
Proof.
  destruct nse as [|code [csv|]]; cbn [get_all_nse_tickers];
    [intros [] | |].
  - destruct (code =? 200)%Z eqn:E; [|intros []].
    apply Z.eqb_eq in E. subst code. intros H.
    apply in_map_iff in H. destruct H as (row & <- & Hrow).
    apply filter_In in Hrow. destruct Hrow as [Hin Heq].
    apply String.eqb_eq in Heq. exists csv, row. repeat split; assumption.
  - destruct (code =? 200)%Z; intros [].
Qed.

(** X18.  A full-market run asks the provider only for symbols of the
    archive whose series is ["EQ"], each with [".NS"] appended; a row of
    another series is never fetched on its own account. *)
Theorem full_market_fetches_EQ_only
    history nse sort_values budget num_stocks (t : string) :
  In t (calls (trace (main history nse sort_values true Full_Market_Slow
                        budget num_stocks))) ->
  exists csv row,
    nse = Response 200 (Some csv) /\ In row csv /\
    SERIES row = "EQ"%string /\ t = (SYMBOL row ++ ".NS")%string.
Proof.
  destruct (main_trace_shape history nse sort_values Full_Market_Slow budget
              num_stocks) as (rest & Htr & Hcalls & _).
  rewrite Htr. unfold calls. rewrite flat_map_app.
  fold (calls (scan_trace nse Full_Market_Slow)). fold (calls rest).
  rewrite scan_trace_calls, Hcalls, app_nil_r. cbn [universe]. intros H.
  apply get_all_nse_tickers_in. exact (in_firstn _ _ _ H).
Qed.


(** * The further properties at concrete runs *)



(** X3 at the zigzag: rises of 10 against falls of 4. *)
Lemma rsi_is_share_of_gains_witness :
  accepted Run.history "Z.NS" Run.zigzag /\
  Exists (fun d => d < 0) (Spec.deltas Run.zigzag) /\
  0 < total_loss Run.zigzag /\
  exists r,
    analyze_stock Run.history "Z.NS" = Some r /\
    RSI r == 100 * total_gain Run.zigzag
             / (total_gain Run.zigzag + total_loss Run.zigzag).
Proof.
  assert (Hfall : Exists (fun d => d < 0) (Spec.deltas Run.zigzag))
    by (apply Exists_cons_tl, Exists_cons_hd; reflexivity).
  split; [exact accepted_zigzag|]. split; [exact Hfall|].
  exact (rsi_is_share_of_gains Run.history "Z.NS" Run.zigzag accepted_zigzag
           Hfall).
Defined.

(** X5 at the zigzag. *)
Lemma score_values_and_trend_witness :
  exists r,
    analyze_stock Run.history "Z.NS" = Some r /\
    In (Score r) [35; 45; 50; 60; 65; 75; 80; 90]%Z /\
    (Trend r = Bullish -> (50 <= Score r)%Z) /\
    (Trend r = Bearish -> (Score r <= 75)%Z).
Proof.
  destruct (analyze_stock Run.history "Z.NS") as [r|] eqn:E;
    [|vm_compute in E; discriminate E].
  exists r. split; [reflexivity|].
  exact (score_values_and_trend Run.history "Z.NS" r E).
Defined.

(** X6 at two series that share their last twenty closes. *)
Lemma price_and_trend_from_last_20_witness :
  Datatypes.length Sample.recent = 20%nat /\
  exists r r',
    analyze_stock Sample.history "P.NS" = Some r /\
    analyze_stock Sample.history "Q.NS" = Some r' /\
    Price r = Price r' /\ Trend r = Trend r'.
Proof.
  assert (Hlen : Datatypes.length Sample.recent = 20%nat) by reflexivity.
  split; [exact Hlen|].
  exact (price_and_trend_from_last_20 Sample.history "P.NS" Sample.history
           "Q.NS" [5; 6] [90; 80; 70] Sample.recent Hlen eq_refl eq_refl).
Defined.

(** X7 at the symbol ["A"]. *)
Lemma label_is_symbol_witness :
  has_NS "A" = false /\
  accepted Run.history ("A" ++ ".NS")%string Run.rising /\
  exists r,
    analyze_stock Run.history ("A" ++ ".NS")%string = Some r /\
    Ticker r = "A"%string.
Proof.
  assert (Hno : has_NS "A" = false) by reflexivity.
  split; [exact Hno|]. split; [exact accepted_rising|].
  exact (label_is_symbol Run.history "A" Run.rising Hno accepted_rising).
Defined.

(** X12 at an archive that answers 503. *)
Lemma full_market_without_archive_witness :
  (Sample.nse_503 = RequestRaises \/
   exists status_code csv,
     Sample.nse_503 = Response status_code csv /\
     (status_code <> 200%Z \/ csv = None)) /\
  get_all_nse_tickers Sample.nse_503 = [] /\
  main Run.history Sample.nse_503 sort_ties_reversed true Full_Market_Slow
    50000 5
  = ([st_spinner; st_progress 0; st_progress_empty; st_error_no_data;
      st_stop], Stopped).
Proof.
  assert (H : Sample.nse_503 = RequestRaises \/
              exists status_code csv,
                Sample.nse_503 = Response status_code csv /\
                (status_code <> 200%Z \/ csv = None)).
  { right. exists 503%Z, None. split; [reflexivity|]. left. discriminate. }
  split; [exact H|].
  exact (full_market_without_archive Run.history Sample.nse_503
           sort_ties_reversed 50000 5 H).
Defined.




Lemma table_AB_shown :
  In (st_dataframe Sample.table_AB)
     (trace (main Run.history Run.nse_AB sort_ties_reversed true
               Full_Market_Slow 50000 5)).
Proof. vm_compute. do 11 right. left. reflexivity. Defined.

(** X16 at the run on ["A.NS"] and ["B.NS"] with the tie-reversing
    sort. *)
Lemma shown_table_sorted_witness :
  sort_values_contract sort_ties_reversed /\
  In (st_dataframe Sample.table_AB)
     (trace (main Run.history Run.nse_AB sort_ties_reversed true
               Full_Market_Slow 50000 5)) /\
  StronglySorted by_score_desc (map row Sample.table_AB) /\
  incl (map row Sample.table_AB)
       (collect Run.history (universe Run.nse_AB Full_Market_Slow)).
Proof.
  split; [exact sort_ties_reversed_contract|]. split; [exact table_AB_shown|].
  exact (shown_table_sorted Run.history Run.nse_AB sort_ties_reversed
           Full_Market_Slow 50000 5 Sample.table_AB
           sort_ties_reversed_contract table_AB_shown).
Defined.


(** X18 at the run on the archive of ["A"] and ["B"]. *)
Lemma full_market_fetches_EQ_only_witness :
  In "B.NS"%string
     (calls (trace (main Run.history Run.nse_AB sort_ties_reversed true
                      Full_Market_Slow 50000 5))) /\
  exists csv row,
    Run.nse_AB = Response 200 (Some csv) /\ In row csv /\
    SERIES row = "EQ"%string /\ "B.NS"%string = (SYMBOL row ++ ".NS")%string.
Proof.
  assert (Hin : In "B.NS"%string
                  (calls (trace (main Run.history Run.nse_AB
                                   sort_ties_reversed true Full_Market_Slow
                                   50000 5))))
    by (vm_compute; right; left; reflexivity).
  split; [exact Hin|].
  exact (full_market_fetches_EQ_only Run.history Run.nse_AB sort_ties_reversed
           50000 5 "B.NS" Hin).
Defined.
